(** * SleekGizmoLite: a shallow embedding of src/SleekGizmoLite.js

    The widget is one JavaScript class over three.js r128.  JavaScript
    numbers are IEEE 754 binary64 values, so they are modelled by Rocq's
    primitive floats: every arithmetic expression below is the source
    expression with the same operator order.  Objects reached through
    [this] become fields of a state record that each method transforms;
    a method that can raise a [TypeError] returns it in a small
    state-and-exception monad.

    What the model takes for granted:
    - a registered callback is an opaque function: calling it is recorded
      and changes nothing the widget reads;
    - the attached object is none of the widget's own objects (group,
      camera), so the widget reaches it through [attachedObject] only;
    - event names are ASCII strings;
    - camera projection and ray casting are the library's and stay
      abstract (the class [Three]). *)

From Stdlib Require Import ZArith Floats List Bool Ascii String.
From stdpp Require Import base option list strings gmap.

(* A decimal literal denotes the nearest binary64 value, as in JavaScript. *)
Set Warnings "-inexact-float,-register-all".

Local Open Scope float_scope.

(** ** JavaScript numbers *)

Module JS.

(** Truthiness of a number: [0], [-0] and [NaN] are falsy. *)
Definition truthy (v : float) : bool := negb (v =? 0) && (v =? v).

(** [v || d] on numbers. *)
Definition or_else (v d : float) : float := if truthy v then v else d.

(** [Math.PI] *)
Definition PI : float := 0x1.921fb54442d18p+1.

End JS.

(** ** The three.js r128 primitives the widget calls

    These are the library's own method bodies (math/Vector3.js,
    math/Quaternion.js, math/Plane.js, math/Ray.js).  A method that
    mutates [this] and returns it becomes a function returning the new
    value. *)

Module Vector2.
Record t := mk { x : float; y : float }.
Definition new : t := mk 0 0.
End Vector2.

Module Quaternion.
Record t := mk { x : float; y : float; z : float; w : float }.

(** [new THREE.Quaternion()] *)
Definition new : t := mk 0 0 0 1.

(** [conjugate()]: [this._x *= -1; this._y *= -1; this._z *= -1] *)
Definition conjugate (q : t) : t :=
  mk (x q * -1) (y q * -1) (z q * -1) (w q).

(** [invert()]: "quaternion is assumed to have unit length" *)
Definition invert (q : t) : t := conjugate q.
End Quaternion.

Module Vector3.
Record t := mk { x : float; y : float; z : float }.

(** [new THREE.Vector3()] *)
Definition new : t := mk 0 0 0.

Definition set_y (v : float) (a : t) : t := mk (x a) v (z a).

Definition add (a b : t) : t := mk (x a + x b) (y a + y b) (z a + z b).
Definition sub (a b : t) : t := mk (x a - x b) (y a - y b) (z a - z b).
Definition subVectors (a b : t) : t := sub a b.
Definition multiplyScalar (a : t) (s : float) : t :=
  mk (x a * s) (y a * s) (z a * s).
Definition divideScalar (a : t) (s : float) : t := multiplyScalar a (1 / s).
Definition dot (a b : t) : float := x a * x b + y a * y b + z a * z b.
Definition length (a : t) : float :=
  sqrt (x a * x a + y a * y a + z a * z a).
Definition normalize (a : t) : t := divideScalar a (JS.or_else (length a) 1).

Definition distanceToSquared (a b : t) : float :=
  let dx := x a - x b in
  let dy := y a - y b in
  let dz := z a - z b in
  dx * dx + dy * dy + dz * dz.
Definition distanceTo (a b : t) : float := sqrt (distanceToSquared a b).

(** [applyQuaternion(q)]: quat * vector, then result * inverse quat. *)
Definition applyQuaternion (v : t) (q : Quaternion.t) : t :=
  let qx := Quaternion.x q in
  let qy := Quaternion.y q in
  let qz := Quaternion.z q in
  let qw := Quaternion.w q in
  let ix := qw * x v + qy * z v - qz * y v in
  let iy := qw * y v + qz * x v - qx * z v in
  let iz := qw * z v + qx * y v - qy * x v in
  let iw := - qx * x v - qy * y v - qz * z v in
  mk (ix * qw + iw * - qx + iy * - qz - iz * - qy)
     (iy * qw + iw * - qy + iz * - qx - ix * - qz)
     (iz * qw + iw * - qz + ix * - qy - iy * - qx).
End Vector3.

Module Plane.
Record t := mk { normal : Vector3.t; constant : float }.

(** [new THREE.Plane()]: normal (1, 0, 0), constant 0. *)
Definition new : t := mk (Vector3.mk 1 0 0) 0.

Definition setFromNormalAndCoplanarPoint (n point : Vector3.t) : t :=
  mk n (- Vector3.dot point n).

Definition distanceToPoint (p : t) (point : Vector3.t) : float :=
  Vector3.dot (normal p) point + constant p.
End Plane.

Module Ray.
Record t := mk { origin : Vector3.t; direction : Vector3.t }.

(** [new THREE.Ray()]: origin (0, 0, 0), direction (0, 0, -1). *)
Definition new : t := mk Vector3.new (Vector3.mk 0 0 (-1)).

(** [at(t, target)] *)
Definition at_ (r : t) (d : float) : Vector3.t :=
  Vector3.add (Vector3.multiplyScalar (direction r) d) (origin r).

(** [distanceToPlane(plane)]; [None] is the library's [null]. *)
Definition distanceToPlane (r : t) (plane : Plane.t) : option float :=
  let denominator := Vector3.dot (Plane.normal plane) (direction r) in
  if denominator =? 0 then
    if Plane.distanceToPoint plane (origin r) =? 0 then Some 0 else None
  else
    let d := - (Vector3.dot (origin r) (Plane.normal plane)
                + Plane.constant plane) / denominator in
    if 0 <=? d then Some d else None.

(** [intersectPlane(plane, target)]: the hit point, or [null]. *)
Definition intersectPlane (r : t) (plane : Plane.t) : option Vector3.t :=
  match distanceToPlane r plane with
  | None => None
  | Some d => Some (at_ r d)
  end.
End Ray.

(** ** The scene data the widget touches *)

(** The axis tag of a handle: the strings ['x'], ['y'] and ['z'] (all
    truthy) are the only values the class ever stores in [userData.axis]
    and [activeAxis]. *)
Inductive Axis := axis_x | axis_y | axis_z.

#[global] Instance Axis_eq_dec : EqDecision Axis.
Proof. solve_decision. Defined.

(** The object handed to [attach]: the three transform properties of a
    THREE.Object3D.  The widget holds a reference to it; the state below
    stores its current value, so a change made by the application between
    two calls is a change of the state the next call starts from. *)
Module Object3D.
Record t := mk {
  position : Vector3.t;
  quaternion : Quaternion.t;
  scale : Vector3.t
}.
Definition set_position (v : Vector3.t) (o : t) : t :=
  mk v (quaternion o) (scale o).
End Object3D.

Module UserData.
(** [userData]: absent properties ([undefined]) are [None]. *)
Record t := mk {
  axis : option Axis;
  type : option string;
  baseColor : option Z
}.
(** [{}] *)
Definition empty : t := mk None None None.
End UserData.

Inductive Geometry :=
| SphereGeometry (radius : float)
| CylinderGeometry (radiusTop radiusBottom height : float)
| ConeGeometry (radius height : float).

Module Material.
(** A MeshBasicMaterial: its colour and [visible] flag (the flags that
    only steer rendering, [transparent], [opacity] and [depthTest], are
    left out). *)
Record t := mk { color : Z; visible : bool }.
End Material.

(** A node of the gizmo's own scene graph: a Mesh (geometry and material
    present) or a Group (both absent). *)
Inductive Node := mkNode {
  userData : UserData.t;
  geometry : option Geometry;
  material : option Material.t;
  position : Vector3.t;
  rotation : Vector3.t;
  scale : Vector3.t;
  renderOrder : Z;
  children : list Node
}.

(** An object of the gizmo's scene graph named by the child indices that
    lead to it from [gizmoGroup]: [[]] is [gizmoGroup] itself, [[i]] its
    i-th child, [[i; j]] that child's j-th child. *)
Definition Path := list nat.

Fixpoint nodeAt (nodes : list Node) (p : Path) : option Node :=
  match p with
  | [] => None
  | i :: rest =>
      match nodes !! i with
      | None => None
      | Some n =>
          match rest with
          | [] => Some n
          | _ => nodeAt (children n) rest
          end
      end
  end.

(** [obj.userData.axis] of the object at a path; [gizmoGroup] itself (and
    the scene above it) carries no axis tag. *)
Definition axisAt (nodes : list Node) (p : Path) : option Axis :=
  match nodeAt nodes p with
  | Some n => UserData.axis (userData n)
  | None => None
  end.

Module Group.
(** [gizmoGroup]: a THREE.Group. *)
Record t := mk {
  position : Vector3.t;
  quaternion : Quaternion.t;
  scale : Vector3.t;
  visible : bool;
  children : list Node
}.
(** [new THREE.Group()]: the Object3D defaults; [visible] is [true]. *)
Definition new : t :=
  mk Vector3.new Quaternion.new (Vector3.mk 1 1 1) true [].

Definition set_position (v : Vector3.t) (g : t) : t :=
  mk v (quaternion g) (scale g) (visible g) (children g).
Definition set_quaternion (v : Quaternion.t) (g : t) : t :=
  mk (position g) v (scale g) (visible g) (children g).
Definition set_scale (v : Vector3.t) (g : t) : t :=
  mk (position g) (quaternion g) v (visible g) (children g).
Definition set_visible (v : bool) (g : t) : t :=
  mk (position g) (quaternion g) (scale g) v (children g).
Definition set_children (v : list Node) (g : t) : t :=
  mk (position g) (quaternion g) (scale g) (visible g) v.
End Group.

(** ** Events *)

Inductive EventType :=
| mousedown | touchstart | mousemove | touchmove | mouseup | touchend.

#[global] Instance EventType_eq_dec : EqDecision EventType.
Proof. solve_decision. Defined.

Module Touch.
Record t := mk { clientX : float; clientY : float }.
End Touch.

Module Event.
(** A MouseEvent has no [changedTouches]; a dispatched TouchEvent has a
    TouchList with at least one entry (its first entry and the rest). *)
Record t := mk {
  type : EventType;
  clientX : float;
  clientY : float;
  changedTouches : option (Touch.t * list Touch.t)
}.
End Event.

(** A registered callback is an opaque function value, named by a number;
    calling it is recorded in the effect log. *)
Definition Callback := nat.

Inductive Effect :=
| Called (cb : Callback)
| PreventDefault.

(** ** The parts of three.js left abstract

    Camera projection and ray casting against mesh geometry are the
    library's work.  The widget only passes their results on, so they are
    parameters: any camera type, and any functions of these types. *)
Class Three := {
  Camera : Type;
  (** [camera.position] *)
  cameraPosition : Camera -> Vector3.t;
  (** [camera.getWorldDirection(target)] *)
  getWorldDirection : Camera -> Vector3.t;
  (** [raycaster.setFromCamera(mouse, camera)]: the new [raycaster.ray] *)
  setFromCamera : Vector2.t -> Camera -> Ray.t;
  (** [raycaster.intersectObjects(gizmoGroup.children, true)]: the objects
      hit, nearest first *)
  intersectObjects : Ray.t -> Group.t -> list Path
}.

(** ** Configuration *)

Module Colors.
Record t := mk { x : Z; y : Z; z : Z; active : Z }.
End Colors.

Module Config.
Record t := mk {
  colors : Colors.t;
  gap : float;
  length : float;
  thickness : float;
  headScale : float;
  bubbleSize : float
}.
Definition defaults : t :=
  mk (Colors.mk 0xFF2A5F 0x00E676 0x2979FF 0xFFFFFF) 1.1 0.8 0.03 0.15 0.3.
End Config.

Module Options.
(** The constructor's [options] object: a property it does not have is
    [None]. *)
Record t := mk {
  colors : option Colors.t;
  gap : option float;
  length : option float;
  thickness : option float;
  headScale : option float;
  bubbleSize : option float
}.
Definition empty : t := mk None None None None None None.
End Options.

(** [Object.assign(defaults, options)]: a shallow merge. *)
Definition assign (d : Config.t) (o : Options.t) : Config.t :=
  Config.mk
    (default (Config.colors d) (Options.colors o))
    (default (Config.gap d) (Options.gap o))
    (default (Config.length d) (Options.length o))
    (default (Config.thickness d) (Options.thickness o))
    (default (Config.headScale d) (Options.headScale o))
    (default (Config.bubbleSize d) (Options.bubbleSize o)).

(** ** The class *)

(** The one exception the class can raise: reading a property of [null]
    or [undefined]. *)
Inductive Error := TypeError.

Inductive Outcome (A : Type) :=
| Returned (a : A)
| Thrown (e : Error).
Arguments Returned {A} a.
Arguments Thrown {A} e.

Module SleekGizmoLite.
Section Class.
Context {three : Three}.

(** The fields of [this], with the two browser values the handlers read
    ([window.innerWidth], [window.innerHeight]).  [ray] is
    [this.raycaster.ray]; [inScene] says whether [this.scene] holds
    [gizmoGroup]; [listening] says whether the six DOM listeners are
    registered; [effects] lists what the calls did to the outside
    (callbacks called, [preventDefault]), oldest first. *)
Record State := mkState {
  camera : Camera;
  innerWidth : float;
  innerHeight : float;
  config : Config.t;
  attachedObject : option Object3D.t;
  gizmoGroup : Group.t;
  inScene : bool;
  ray : Ray.t;
  mouse : Vector2.t;
  isDragging : bool;
  activeAxis : option Axis;
  _dragPlane : Plane.t;
  _startIntersection : Vector3.t;
  _startPosition : Vector3.t;
  callbacks : gmap string (list Callback);
  listening : bool;
  effects : list Effect
}.

Definition set_camera (v : Camera) (s : State) : State :=
  mkState v (innerWidth s) (innerHeight s) (config s) (attachedObject s)
    (gizmoGroup s) (inScene s) (ray s) (mouse s) (isDragging s) (activeAxis s)
    (_dragPlane s) (_startIntersection s) (_startPosition s) (callbacks s)
    (listening s) (effects s) .
Definition set_innerWidth (v : float) (s : State) : State :=
  mkState (camera s) v (innerHeight s) (config s) (attachedObject s)
    (gizmoGroup s) (inScene s) (ray s) (mouse s) (isDragging s) (activeAxis s)
    (_dragPlane s) (_startIntersection s) (_startPosition s) (callbacks s)
    (listening s) (effects s) .
Definition set_innerHeight (v : float) (s : State) : State :=
  mkState (camera s) (innerWidth s) v (config s) (attachedObject s)
    (gizmoGroup s) (inScene s) (ray s) (mouse s) (isDragging s) (activeAxis s)
    (_dragPlane s) (_startIntersection s) (_startPosition s) (callbacks s)
    (listening s) (effects s) .
Definition set_attachedObject (v : option Object3D.t) (s : State) : State :=
  mkState (camera s) (innerWidth s) (innerHeight s) (config s) v
    (gizmoGroup s) (inScene s) (ray s) (mouse s) (isDragging s) (activeAxis s)
    (_dragPlane s) (_startIntersection s) (_startPosition s) (callbacks s)
    (listening s) (effects s) .
Definition set_gizmoGroup (v : Group.t) (s : State) : State :=
  mkState (camera s) (innerWidth s) (innerHeight s) (config s)
    (attachedObject s) v (inScene s) (ray s) (mouse s) (isDragging s)
    (activeAxis s) (_dragPlane s) (_startIntersection s) (_startPosition s)
    (callbacks s) (listening s) (effects s) .
Definition set_inScene (v : bool) (s : State) : State :=
  mkState (camera s) (innerWidth s) (innerHeight s) (config s)
    (attachedObject s) (gizmoGroup s) v (ray s) (mouse s) (isDragging s)
    (activeAxis s) (_dragPlane s) (_startIntersection s) (_startPosition s)
    (callbacks s) (listening s) (effects s) .
Definition set_ray (v : Ray.t) (s : State) : State :=
  mkState (camera s) (innerWidth s) (innerHeight s) (config s)
    (attachedObject s) (gizmoGroup s) (inScene s) v (mouse s) (isDragging s)
    (activeAxis s) (_dragPlane s) (_startIntersection s) (_startPosition s)
    (callbacks s) (listening s) (effects s) .
Definition set_mouse (v : Vector2.t) (s : State) : State :=
  mkState (camera s) (innerWidth s) (innerHeight s) (config s)
    (attachedObject s) (gizmoGroup s) (inScene s) (ray s) v (isDragging s)
    (activeAxis s) (_dragPlane s) (_startIntersection s) (_startPosition s)
    (callbacks s) (listening s) (effects s) .
Definition set_isDragging (v : bool) (s : State) : State :=
  mkState (camera s) (innerWidth s) (innerHeight s) (config s)
    (attachedObject s) (gizmoGroup s) (inScene s) (ray s) (mouse s) v
    (activeAxis s) (_dragPlane s) (_startIntersection s) (_startPosition s)
    (callbacks s) (listening s) (effects s) .
Definition set_activeAxis (v : option Axis) (s : State) : State :=
  mkState (camera s) (innerWidth s) (innerHeight s) (config s)
    (attachedObject s) (gizmoGroup s) (inScene s) (ray s) (mouse s)
    (isDragging s) v (_dragPlane s) (_startIntersection s) (_startPosition s)
    (callbacks s) (listening s) (effects s) .
Definition set__dragPlane (v : Plane.t) (s : State) : State :=
  mkState (camera s) (innerWidth s) (innerHeight s) (config s)
    (attachedObject s) (gizmoGroup s) (inScene s) (ray s) (mouse s)
    (isDragging s) (activeAxis s) v (_startIntersection s) (_startPosition s)
    (callbacks s) (listening s) (effects s) .
Definition set__startIntersection (v : Vector3.t) (s : State) : State :=
  mkState (camera s) (innerWidth s) (innerHeight s) (config s)
    (attachedObject s) (gizmoGroup s) (inScene s) (ray s) (mouse s)
    (isDragging s) (activeAxis s) (_dragPlane s) v (_startPosition s)
    (callbacks s) (listening s) (effects s) .
Definition set__startPosition (v : Vector3.t) (s : State) : State :=
  mkState (camera s) (innerWidth s) (innerHeight s) (config s)
    (attachedObject s) (gizmoGroup s) (inScene s) (ray s) (mouse s)
    (isDragging s) (activeAxis s) (_dragPlane s) (_startIntersection s) v
    (callbacks s) (listening s) (effects s) .
Definition set_callbacks (v : gmap string (list Callback)) (s : State)
    : State :=
  mkState (camera s) (innerWidth s) (innerHeight s) (config s)
    (attachedObject s) (gizmoGroup s) (inScene s) (ray s) (mouse s)
    (isDragging s) (activeAxis s) (_dragPlane s) (_startIntersection s)
    (_startPosition s) v (listening s) (effects s) .
Definition set_listening (v : bool) (s : State) : State :=
  mkState (camera s) (innerWidth s) (innerHeight s) (config s)
    (attachedObject s) (gizmoGroup s) (inScene s) (ray s) (mouse s)
    (isDragging s) (activeAxis s) (_dragPlane s) (_startIntersection s)
    (_startPosition s) (callbacks s) v (effects s) .
Definition set_effects (v : list Effect) (s : State) : State :=
  mkState (camera s) (innerWidth s) (innerHeight s) (config s)
    (attachedObject s) (gizmoGroup s) (inScene s) (ray s) (mouse s)
    (isDragging s) (activeAxis s) (_dragPlane s) (_startIntersection s)
    (_startPosition s) (callbacks s) (listening s) v.

(** A method body: it runs on a state and returns normally or throws,
    leaving the state as it was at that point. *)
Definition M (A : Type) : Type := State -> Outcome A * State.

#[export] Instance M_ret : MRet M := fun A a s => (Returned a, s).
#[export] Instance M_bind : MBind M := fun A B f m s =>
  match m s with
  | (Returned a, s') => f a s'
  | (Thrown e, s') => (Thrown e, s')
  end.

Definition get : M State := fun s => (Returned s, s).
Definition modify (f : State -> State) : M unit := fun s => (Returned tt, f s).
Definition throw {A} (e : Error) : M A := fun s => (Thrown e, s).
Definition when (b : bool) (m : M unit) : M unit := if b then m else mret tt.

(** *** Helpers of the handlers *)

(** An object reference is falsy only when it is [null]. *)
Definition isNull {A} (o : option A) : bool :=
  match o with None => true | Some _ => false end.

(** An assignment into [this.attachedObject]: it throws when nothing is
    attached. *)
Definition updateAttached (f : Object3D.t -> Object3D.t) : M unit :=
  fun s =>
    match attachedObject s with
    | Some o => (Returned tt, set_attachedObject (Some (f o)) s)
    | None => (Thrown TypeError, s)
    end.

(** [_trigger(event)]: every callback of the list is called, in order. *)
Definition _trigger (event : string) : M unit :=
  s ← get;
  match callbacks s !! event with
  | Some cbs => modify (set_effects (effects s ++ map Called cbs))
  | None => throw TypeError
  end.

(** [e.preventDefault()] *)
Definition preventDefault : M unit :=
  modify (fun s => set_effects (effects s ++ [PreventDefault]) s).

Definition _getEventPos (e : Event.t) : float * float :=
  match Event.changedTouches e with
  | Some (t0, _) => (Touch.clientX t0, Touch.clientY t0)
  | None => (Event.clientX e, Event.clientY e)
  end.

(** [_getAxisVector(axis)]; [axis] is [this.activeAxis], [null] when no
    drag is active.  Reading [this.attachedObject.quaternion] throws
    when nothing is attached. *)
Definition _getAxisVector (axis : option Axis) : M Vector3.t :=
  s ← get;
  let v := Vector3.mk (if bool_decide (axis = Some axis_x) then 1 else 0)
                      (if bool_decide (axis = Some axis_y) then 1 else 0)
                      (if bool_decide (axis = Some axis_z) then 1 else 0) in
  match attachedObject s with
  | Some o => mret (Vector3.applyQuaternion v (Object3D.quaternion o))
  | None => throw TypeError
  end.

(** [_colorRecursive(obj, col)].  The stick and the head of a handle
    share one material in the source; they are always recoloured
    together, so each node carries its own copy here. *)
Fixpoint _colorRecursive (obj : Node) (col : Z) : Node :=
  match obj with
  | mkNode u g m p r sc ro ch =>
      mkNode u g
        match m, UserData.axis u with
        | Some mat, None => Some (Material.mk col (Material.visible mat))
        | _, _ => m
        end
        p r sc ro (map (fun c => _colorRecursive c col) ch)
  end.

Definition _highlightAxis (axis : Axis) : M unit :=
  modify (fun s =>
    let col := Colors.active (Config.colors (config s)) in
    let paint g :=
      if bool_decide (UserData.axis (userData g) = Some axis)
      then _colorRecursive g col else g in
    set_gizmoGroup
      (Group.set_children (map paint (Group.children (gizmoGroup s)))
         (gizmoGroup s)) s).

(** [if (g.userData.baseColor)]: the colour [0] is falsy. *)
Definition _resetColors : M unit :=
  modify (fun s =>
    let paint g :=
      match UserData.baseColor (userData g) with
      | Some c => if (c =? 0)%Z then g else _colorRecursive g c
      | None => g
      end in
    set_gizmoGroup
      (Group.set_children (map paint (Group.children (gizmoGroup s)))
         (gizmoGroup s)) s).

(** *** Building the handles *)

Definition mesh (u : UserData.t) (g : Geometry) (m : Material.t)
    (posY : float) (ro : Z) : Node :=
  mkNode u (Some g) (Some m) (Vector3.mk 0 posY 0) Vector3.new
    (Vector3.mk 1 1 1) ro [].

Definition _addHandle (axis : Axis) (color : Z) (rot : Vector3.t) : M unit :=
  modify (fun s =>
    let c := config s in
    let mat := Material.mk color true in
    let stick :=
      mesh UserData.empty
        (CylinderGeometry (Config.thickness c) (Config.thickness c)
           (Config.length c))
        mat (Config.gap c + Config.length c / 2) 999 in
    let head :=
      mesh UserData.empty
        (ConeGeometry (Config.headScale c) (Config.headScale c * 2.5))
        mat (Config.gap c + Config.length c) 999 in
    let hit :=
      mesh (UserData.mk (Some axis) None None)
        (CylinderGeometry (Config.bubbleSize c) (Config.bubbleSize c)
           (Config.length c + 0.5))
        (Material.mk 0xffffff false)
        (Config.gap c + Config.length c / 2) 0 in
    let grp :=
      mkNode (UserData.mk (Some axis) (Some "handle"%string) (Some color))
        None None Vector3.new rot (Vector3.mk 1 1 1) 0 [stick; head; hit] in
    set_gizmoGroup
      (Group.set_children (Group.children (gizmoGroup s) ++ [grp])
         (gizmoGroup s)) s).

Definition _buildGizmo : M unit :=
  modify (fun s => set_gizmoGroup (Group.set_children [] (gizmoGroup s)) s);;
  modify (fun s =>
    let sphere :=
      mesh UserData.empty (SphereGeometry 0.2) (Material.mk 0xffffff true)
        0 0 in
    set_gizmoGroup
      (Group.set_children (Group.children (gizmoGroup s) ++ [sphere])
         (gizmoGroup s)) s);;
  s ← get;
  let c := Config.colors (config s) in
  _addHandle axis_x (Colors.x c) (Vector3.mk 0 0 (- JS.PI / 2));;
  _addHandle axis_y (Colors.y c) (Vector3.mk 0 0 0);;
  _addHandle axis_z (Colors.z c) (Vector3.mk (JS.PI / 2) 0 0).

(** *** Camera-relative scale and flipping *)

(** The body of the [forEach] in [_updateVisuals]. *)
Definition flipHandle (cam : Vector3.t) (g : Node) : Node :=
  if bool_decide (UserData.type (userData g) = Some "handle"%string) then
    let axis := UserData.axis (userData g) in
    let flip :=
      bool_decide (axis = Some axis_x) && (Vector3.x cam <? -0.2)
      || bool_decide (axis = Some axis_y) && (Vector3.y cam <? -0.2)
      || bool_decide (axis = Some axis_z) && (Vector3.z cam <? -0.2) in
    match g with
    | mkNode u ge m p r sc ro ch =>
        mkNode u ge m p r (Vector3.set_y (if flip then -1 else 1) sc) ro ch
    end
  else g.

(** The vector [cam] of [_updateVisuals]: the camera position minus the
    group position, turned by the conjugate of the group quaternion. *)
Definition cameraInGizmoFrame (c : Vector3.t) (g : Group.t) : Vector3.t :=
  let inv := Quaternion.invert (Group.quaternion g) in
  Vector3.applyQuaternion (Vector3.sub c (Group.position g)) inv.

Definition _updateVisuals : M unit :=
  modify (fun s =>
    let cam := cameraInGizmoFrame (cameraPosition (camera s)) (gizmoGroup s) in
    set_gizmoGroup
      (Group.set_children
         (map (flipHandle cam) (Group.children (gizmoGroup s)))
         (gizmoGroup s)) s).

Definition update : M unit :=
  s ← get;
  match attachedObject s with
  | None => mret tt
  | Some o =>
      if negb (Group.visible (gizmoGroup s)) then mret tt else
      modify (fun s =>
        set_gizmoGroup
          (Group.set_position (Object3D.position o) (gizmoGroup s)) s);;
      modify (fun s =>
        set_gizmoGroup
          (Group.set_quaternion (Object3D.quaternion o) (gizmoGroup s)) s);;
      let dist :=
        Vector3.distanceTo (cameraPosition (camera s)) (Object3D.position o) in
      let scale := dist * 0.09 in
      modify (fun s =>
        set_gizmoGroup
          (Group.set_scale (Vector3.mk scale scale scale) (gizmoGroup s)) s);;
      when (negb (isDragging s)) _updateVisuals
  end.

(** *** The public methods *)

(** [new SleekGizmoLite(scene, camera, renderer, options)], in a window
    of the given size. *)
Definition constructor (cam : Camera) (w h : float) (options : Options.t)
    : State :=
  mkState cam w h (assign Config.defaults options)
    None Group.new true
    Ray.new Vector2.new
    false None
    Plane.new Vector3.new Vector3.new
    {[ "onDragStart"%string := []; "onDragEnd"%string := [];
       "onChange"%string := [] ]}
    true [].

(** [attach(object)]; [None] is [null]. *)
Definition attach (object : option Object3D.t) : M unit :=
  modify (set_attachedObject object);;
  modify (fun s =>
    set_gizmoGroup
      (Group.set_visible (negb (isNull object)) (gizmoGroup s)) s);;
  _buildGizmo;;
  update.

Definition detach : M unit :=
  modify (set_attachedObject None);;
  modify (fun s =>
    set_gizmoGroup (Group.set_visible false (gizmoGroup s)) s).

(** [c.toUpperCase()] on one character; characters outside ASCII are
    left as they are. *)
Definition toUpperCase (c : ascii) : ascii :=
  let n := nat_of_ascii c in
  if ((97 <=? n) && (n <=? 122))%nat then ascii_of_nat (n - 32) else c.

(** ['on' + event.charAt(0).toUpperCase() + event.slice(1)] *)
Definition callbackName (event : string) : string :=
  match event with
  | EmptyString => "on"
  | String c rest => "on" +:+ String (toUpperCase c) rest
  end.

Definition on (event : string) (callback : Callback) : M unit :=
  let name := callbackName event in
  s ← get;
  match callbacks s !! name with
  | Some l => modify (set_callbacks (<[name := l ++ [callback]]> (callbacks s)))
  | None => mret tt
  end.

Definition dispose : M unit :=
  modify (set_inScene false);;
  modify (set_listening false).

(** *** The pointer handlers *)

(** The loop [while (obj && !obj.userData.axis && obj.parent) obj =
    obj.parent] followed by the test [obj && obj.userData.axis].  The
    path is given leaf first, so the parent is its tail; above
    [gizmoGroup] no object carries an axis. *)
Fixpoint ancestorAxis (nodes : list Node) (leafFirst : list nat)
    : option Axis :=
  match axisAt nodes (rev leafFirst) with
  | Some a => Some a
  | None =>
      match leafFirst with
      | [] => None
      | _ :: parent => ancestorAxis nodes parent
      end
  end.

Definition _startDrag (axis : Axis) (x y : float) : M unit :=
  modify (set_isDragging true);;
  modify (set_activeAxis (Some axis));;
  _highlightAxis axis;;
  _trigger "onDragStart";;
  s ← get;
  let normal := getWorldDirection (camera s) in
  match attachedObject s with
  | None => throw TypeError
  | Some o =>
      let plane :=
        Plane.setFromNormalAndCoplanarPoint normal (Object3D.position o) in
      modify (set__dragPlane plane);;
      modify (set__startPosition (Object3D.position o));;
      let intersection :=
        default Vector3.new (Ray.intersectPlane (ray s) plane) in
      modify (set__startIntersection intersection)
  end.

(** The two assignments to [this.mouse] and [setFromCamera]. *)
Definition aim (x y : float) : M unit :=
  modify (fun s =>
    set_mouse
      (Vector2.mk ((x / innerWidth s) * 2 - 1) (- (y / innerHeight s) * 2 + 1))
      s);;
  modify (fun s => set_ray (setFromCamera (mouse s) (camera s)) s).

Definition _handleDown (e : Event.t) : M unit :=
  s ← get;
  if isNull (attachedObject s) || negb (Group.visible (gizmoGroup s))
  then mret tt else
  let '(x, y) := _getEventPos e in
  aim x y;;
  s ← get;
  let intersects := intersectObjects (ray s) (gizmoGroup s) in
  match intersects with
  | [] => mret tt
  | obj :: _ =>
      match ancestorAxis (Group.children (gizmoGroup s)) (rev obj) with
      | None => mret tt
      | Some axis =>
          when (bool_decide (Event.type e = touchstart)) preventDefault;;
          _startDrag axis x y
      end
  end.

Definition _handleMove (e : Event.t) : M unit :=
  s ← get;
  if negb (isDragging s) then mret tt else
  when (bool_decide (Event.type e = touchmove)) preventDefault;;
  let '(x, y) := _getEventPos e in
  aim x y;;
  s ← get;
  match Ray.intersectPlane (ray s) (_dragPlane s) with
  | None => mret tt
  | Some current =>
      let delta := Vector3.subVectors current (_startIntersection s) in
      v ← _getAxisVector (activeAxis s);
      let axisVec := Vector3.normalize v in
      let amount := Vector3.dot delta axisVec in
      updateAttached
        (Object3D.set_position
           (Vector3.add (_startPosition s)
              (Vector3.multiplyScalar axisVec amount)))
  end;;
  _trigger "onChange".

Definition _handleUp : M unit :=
  s ← get;
  if isDragging s then
    modify (set_isDragging false);;
    modify (set_activeAxis None);;
    _resetColors;;
    _trigger "onDragEnd"
  else mret tt.

(** *** Running the widget *)

(** What can happen to a widget: the application calls a public method,
    the browser dispatches a pointer event, or the application changes
    the camera, the window size or the transform of the attached
    object. *)
Inductive Op :=
| call_attach (object : option Object3D.t)
| call_detach
| call_on (event : string) (callback : Callback)
| call_update
| call_dispose
| pointer (e : Event.t)
| env_camera (c : Camera)
| env_resize (w h : float)
| env_object (o : Object3D.t).

(** The listeners registered by [_initEvents]. *)
Definition dispatch (e : Event.t) : M unit :=
  s ← get;
  if negb (listening s) then mret tt else
  match Event.type e with
  | mousedown | touchstart => _handleDown e
  | mousemove | touchmove => _handleMove e
  | mouseup | touchend => _handleUp
  end.

Definition exec (op : Op) : M unit :=
  match op with
  | call_attach o => attach o
  | call_detach => detach
  | call_on ev cb => on ev cb
  | call_update => update
  | call_dispose => dispose
  | pointer e => dispatch e
  | env_camera c => modify (set_camera c)
  | env_resize w h => modify (set_innerWidth w);; modify (set_innerHeight h)
  | env_object o =>
      modify (fun s =>
        match attachedObject s with
        | Some _ => set_attachedObject (Some o) s
        | None => s
        end)
  end.

(** The state after a call, whether it returned or threw. *)
Definition after {A} (m : M A) (s : State) : State := snd (m s).

Definition run (ops : list Op) (s : State) : State :=
  fold_left (fun s op => after (exec op) s) ops s.

(** The states a widget can be in: built by the constructor, then
    driven by any sequence of operations. *)
Definition reachable (s : State) : Prop :=
  exists cam w h options ops, s = run ops (constructor cam w h options).

(** The state after the handlers' common prologue for a pointer event:
    [this.mouse] and [this.raycaster.ray] are set from the pointer
    position. *)
Definition aimed (e : Event.t) (s : State) : State :=
  after (aim (_getEventPos e).1 (_getEventPos e).2) s.

(** The ray the prologue leaves in [this.raycaster.ray]. *)
Definition pointerRay (e : Event.t) (s : State) : Ray.t := ray (aimed e s).

(** The world-frame unit vector of an axis. *)
Definition worldAxis (a : Axis) : Vector3.t :=
  match a with
  | axis_x => Vector3.mk 1 0 0
  | axis_y => Vector3.mk 0 1 0
  | axis_z => Vector3.mk 0 0 1
  end.

End Class.
End SleekGizmoLite.

Import SleekGizmoLite.

(** ** A concrete scene

    An orthographic camera looking down the negative z axis whose view is
    8 units wide and high: its state is its position, and the ray through
    the normalised pointer position [(mx, my)] starts on the camera plane
    at [(4 mx, 4 my)] from the camera.  The ray caster reports a hit for
    a ray that starts within a quarter unit of the point [(0, 1)], which
    lies on the handle along the world y axis: the hit mesh (child 2) of
    the y handle (child 2 of the group) when the group is not rotated,
    and of the x handle (child 1) when it is turned as the object
    [turned] below.  Other rays hit nothing. *)
Module Scene.

Definition ortho : Three := {|
  Camera := Vector3.t;
  cameraPosition c := c;
  getWorldDirection _ := Vector3.mk 0 0 (-1);
  setFromCamera m c :=
    Ray.mk (Vector3.mk (Vector3.x c + 4 * Vector2.x m)
                       (Vector3.y c + 4 * Vector2.y m)
                       (Vector3.z c))
           (Vector3.mk 0 0 (-1));
  intersectObjects r g :=
    let o := Ray.origin r in
    if (-0.25 <? Vector3.x o) && (Vector3.x o <? 0.25)
       && (0.75 <? Vector3.y o) && (Vector3.y o <? 1.25)
    then
      if Quaternion.w (Group.quaternion g) =? 1
      then [[2%nat; 2%nat]] else [[1%nat; 2%nat]]
    else []
|}.

(** The camera, ten units in front of the origin. *)
Definition cam : Vector3.t := Vector3.mk 0 0 10.

(** A widget in an 800 by 800 window. *)
Definition fresh : State (three := ortho) :=
  constructor (three := ortho) cam 800 800 Options.empty.

(** An object at the origin, turned by a third of a turn about the
    diagonal (1, 1, 1): its local x axis is the world y axis. *)
Definition turned : Object3D.t :=
  Object3D.mk (Vector3.mk 0 0 0) (Quaternion.mk 0.5 0.5 0.5 0.5)
    (Vector3.mk 1 1 1).

(** An object at the origin that is not rotated. *)
Definition upright : Object3D.t :=
  Object3D.mk (Vector3.mk 0 0 0) Quaternion.new (Vector3.mk 1 1 1).

Definition mouse_at (ty : EventType) (x y : float) : Event.t :=
  Event.mk ty x y None.

(** A widget with the unrotated object attached. *)
Definition attached : State (three := ortho) :=
  after (three := ortho) (attach (Some upright)) fresh.

(** A widget with one [change] callback and the rotated object
    attached. *)
Definition ready : State (three := ortho) :=
  run (three := ortho)
    [call_on "change" 7%nat; call_attach (Some turned)] fresh.

(** A press at pixel (400, 300), the point (0, 1) of the scene, where the
    x handle of the rotated object lies. *)
Definition press : Event.t := mouse_at mousedown 400 300.

(** A move to pixel (400, 200), the point (0, 2) of the scene. *)
Definition move : Event.t := mouse_at mousemove 400 200.

(** The release of the pointer. *)
Definition release : Event.t := mouse_at mouseup 400 200.

(** The same widget after the press on the x handle. *)
Definition dragging : State (three := ortho) :=
  run (three := ortho)
    [call_on "change" 7%nat; call_attach (Some turned); pointer press]
    fresh.

(** The same drag after the application called [detach] in the middle
    of it. *)
Definition dropped : State (three := ortho) :=
  run (three := ortho)
    [call_on "change" 7%nat; call_attach (Some turned); pointer press;
     call_detach]
    fresh.

(** A touch on the x handle: the same point, as the first changed
    touch of a [touchstart]. *)
Definition touch : Event.t :=
  Event.mk touchstart 0 0 (Some (Touch.mk 400 300, [])).

(** A whole drag of the rotated object with one callback per event. *)
Definition dragged : State (three := ortho) :=
  run (three := ortho)
    [call_on "dragStart" 1%nat; call_on "change" 2%nat;
     call_on "dragEnd" 3%nat; call_attach (Some turned);
     pointer press; pointer move; pointer release]
    fresh.

(** The colour of the stick of the x handle. *)
Definition stickColor (s : State (three := ortho)) : option Z :=
  n ← nodeAt (Group.children (gizmoGroup s)) [1%nat; 0%nat];
  m ← material n;
  Some (Material.color m).

(** A widget whose object was attached and detached again, after which
    the camera moved to the far side of the x axis. *)
Definition detached : State (three := ortho) :=
  run (three := ortho)
    [call_attach (Some upright); call_detach;
     env_camera (three := ortho) (Vector3.mk (-10) 0 0)]
    fresh.

(** A widget with the unrotated object attached, after which the camera
    moved a little to the side: 0.19 units along negative x, ten units in
    front of the object. *)
Definition aside : State (three := ortho) :=
  run (three := ortho)
    [call_attach (Some upright);
     env_camera (three := ortho) (Vector3.mk (-0.19) 0 10)]
    fresh.

End Scene.

(** ** The vocabulary of the properties *)

Section Vocabulary.
Context {three : Three}.

(** How a call ends: with a value or with an exception. *)
Definition outcome {A} (m : M A) (s : State) : Outcome A := (m s).1.

(** The weakest precondition of a call: [Q] holds of how it ends and of
    the state it leaves. *)
Definition wp {A} (m : M A) (Q : Outcome A -> State -> Prop) (s : State)
    : Prop :=
  Q (outcome m s) (after m s).

(** A computation leaves an observation of the state as it was,
    whether it returns or throws. *)
Definition preserves {A B} (f : State -> B) (m : M A) : Prop :=
  forall s, f (after m s) = f s.

(** The keys of [this.callbacks]: the three lists the constructor
    creates.  No operation adds or removes a key. *)
Definition callbackKeys : gset string :=
  {[ "onDragStart"%string; "onDragEnd"%string; "onChange"%string ]}.

Definition hasCallbacks (s : State) : Prop :=
  dom (callbacks s) = callbackKeys.

(** What C9's invariant reads. *)
Definition visibleAttached (s : State) : bool * bool :=
  (Group.visible (gizmoGroup s), isNull (attachedObject s)).

(** C9's invariant: [gizmoGroup.visible] is true exactly when an object
    is attached. *)
Definition visibleIffAttached (s : State) : Prop :=
  Group.visible (gizmoGroup s) = true <-> attachedObject s <> None.

(** The drag in progress, as the widget records it. *)
Definition dragState (s : State)
    : bool * option Axis * Plane.t * Vector3.t * Vector3.t :=
  (isDragging s, activeAxis s, _dragPlane s, _startPosition s,
   _startIntersection s).

(** The rotation and the scale of the attached object. *)
Definition attachedShape (s : State)
    : option (Quaternion.t * Vector3.t) :=
  match attachedObject s with
  | Some o => Some (Object3D.quaternion o, Object3D.scale o)
  | None => None
  end.

(** The effects of one [_trigger(name)]: each callback of the list once,
    in order. *)
Definition triggered (name : string) (s : State) : list Effect :=
  match callbacks s !! name with
  | Some cbs => map Called cbs
  | None => []
  end.

(** The operations that act on the widget without attaching another
    object, detaching, or writing the object from outside. *)
Definition keepsObject (op : Op) : bool :=
  match op with
  | call_attach _ | call_detach | env_object _ => false
  | _ => true
  end.

(** The operations that can occur while a drag goes on without ending or
    restarting it: pointer moves, calls of [update], [on] and [dispose],
    and changes of the camera, the window and the object's transform. *)
Definition duringDrag (op : Op) : bool :=
  match op with
  | call_attach _ | call_detach => false
  | pointer e =>
      match Event.type e with
      | mousemove | touchmove => true
      | _ => false
      end
  | _ => true
  end.

(** [pos] is [start] plus a scalar multiple of [u]. *)
Definition movesAlong (u start pos : Vector3.t) : Prop :=
  exists k : float, pos = Vector3.add start (Vector3.multiplyScalar u k).

(** The coordinate of a vector along an axis. *)
Definition axisCoord (a : Axis) (v : Vector3.t) : float :=
  match a with
  | axis_x => Vector3.x v
  | axis_y => Vector3.y v
  | axis_z => Vector3.z v
  end.

(** C7's statement about one call of [update] from the state [s]: every
    handle of the group is mirrored (y scale [-1]) when the camera, seen
    from the group, lies below [-0.2] along the handle's axis, and
    upright (y scale [1]) otherwise. *)
Definition flipsEveryHandle (s : State) : Prop :=
  let s' := after update s in
  let cam := cameraInGizmoFrame (cameraPosition (camera s)) (gizmoGroup s') in
  forall g a,
    g ∈ Group.children (gizmoGroup s') ->
    UserData.type (userData g) = Some "handle"%string ->
    UserData.axis (userData g) = Some a ->
    Vector3.y (scale g) = if axisCoord a cam <? -0.2 then -1 else 1.

(** The camera position expressed in the group's local frame, scale
    included, as [worldToLocal] of the library gives it: the inverse of
    the group's transform (translation, rotation, scale) applied to the
    point, so the coordinates of [cameraInGizmoFrame] divided by the
    group's scale. *)
Definition cameraInLocalFrame (c : Vector3.t) (g : Group.t) : Vector3.t :=
  let v := cameraInGizmoFrame c g in
  Vector3.mk (Vector3.x v / Vector3.x (Group.scale g))
             (Vector3.y v / Vector3.y (Group.scale g))
             (Vector3.z v / Vector3.z (Group.scale g)).

(** C7's statement read with that local frame: every handle is mirrored
    exactly when the camera's local coordinate along the handle's axis
    lies below [-0.2]. *)
Definition flipsEveryHandleInLocalFrame (s : State) : Prop :=
  let s' := after update s in
  let cam := cameraInLocalFrame (cameraPosition (camera s)) (gizmoGroup s') in
  forall g a,
    g ∈ Group.children (gizmoGroup s') ->
    UserData.type (userData g) = Some "handle"%string ->
    UserData.axis (userData g) = Some a ->
    Vector3.y (scale g) = if axisCoord a cam <? -0.2 then -1 else 1.

End Vocabulary.

(** The event names [on] accepts, with the list each one feeds: the first
    letter may already be a capital. *)
Definition eventNames : list (string * string) :=
  [ ("dragStart", "onDragStart"); ("DragStart", "onDragStart");
    ("dragEnd", "onDragEnd"); ("DragEnd", "onDragEnd");
    ("change", "onChange"); ("Change", "onChange") ]%string.

(** ** The vocabulary of the further properties *)

(** The group [_addHandle] adds for one axis: the stick, the head and the
    invisible hit cylinder. *)
Definition handleNode (c : Config.t) (axis : Axis) (color : Z)
    (rot : Vector3.t) : Node :=
  let mat := Material.mk color true in
  let stick :=
    mesh UserData.empty
      (CylinderGeometry (Config.thickness c) (Config.thickness c)
         (Config.length c))
      mat (Config.gap c + Config.length c / 2) 999 in
  let head :=
    mesh UserData.empty
      (ConeGeometry (Config.headScale c) (Config.headScale c * 2.5))
      mat (Config.gap c + Config.length c) 999 in
  let hit :=
    mesh (UserData.mk (Some axis) None None)
      (CylinderGeometry (Config.bubbleSize c) (Config.bubbleSize c)
         (Config.length c + 0.5))
      (Material.mk 0xffffff false)
      (Config.gap c + Config.length c / 2) 0 in
  mkNode (UserData.mk (Some axis) (Some "handle"%string) (Some color))
    None None Vector3.new rot (Vector3.mk 1 1 1) 0 [stick; head; hit].

(** The children [_buildGizmo] leaves in the group: the central sphere
    and the handles of x, y and z. *)
Definition gizmoChildren (c : Config.t) : list Node :=
  [ mesh UserData.empty (SphereGeometry 0.2) (Material.mk 0xffffff true) 0 0;
    handleNode c axis_x (Colors.x (Config.colors c))
      (Vector3.mk 0 0 (- JS.PI / 2));
    handleNode c axis_y (Colors.y (Config.colors c)) (Vector3.mk 0 0 0);
    handleNode c axis_z (Colors.z (Config.colors c))
      (Vector3.mk (JS.PI / 2) 0 0) ].

(** The place of an axis' handle among the children of the group. *)
Definition handleIndex (a : Axis) : nat :=
  match a with
  | axis_x => 1
  | axis_y => 2
  | axis_z => 3
  end.

(** The body of the [forEach] in [_highlightAxis]. *)
Definition highlight (axis : Axis) (col : Z) (g : Node) : Node :=
  if bool_decide (UserData.axis (userData g) = Some axis)
  then _colorRecursive g col else g.

(** The body of the [forEach] in [_resetColors]. *)
Definition reset (g : Node) : Node :=
  match UserData.baseColor (userData g) with
  | Some c => if (c =? 0)%Z then g else _colorRecursive g c
  | None => g
  end.

(** A child [_resetColors] can repaint: its base colour is not the falsy
    [0]; a child without base colour is no handle. *)
Definition coloured (g : Node) : Prop :=
  match UserData.baseColor (userData g) with
  | Some c => c <> 0%Z
  | None => UserData.axis (userData g) = None
  end.

(** A configuration whose three axis colours are not [0] (black). *)
Definition plainColours (c : Config.t) : Prop :=
  Colors.x (Config.colors c) <> 0%Z
  /\ Colors.y (Config.colors c) <> 0%Z
  /\ Colors.z (Config.colors c) <> 0%Z.

(** A child of the group in its resting colours: painted in its base
    colour when it has one, and no handle otherwise. *)
Definition atRest (g : Node) : Prop :=
  match UserData.baseColor (userData g) with
  | Some c => _colorRecursive g c = g
  | None => UserData.axis (userData g) = None
  end.

Section FurtherVocabulary.
Context {three : Three}.

(** [activeAxis] is set exactly while [isDragging] is. *)
Definition dragConsistent (s : State) : Prop :=
  isDragging s = negb (isNull (activeAxis s)).

(** The ways one operation changes the children of the group, from
    the state [s] before it to the state [s'] after it: not at all, by
    the flips of [_updateVisuals] outside a drag, by a rebuild, by the
    highlight of a press, or by the repaint of a release. *)
Inductive handlesStep (s s' : State) : Prop :=
| handles_kept :
    isDragging s' = isDragging s ->
    Group.children (gizmoGroup s') = Group.children (gizmoGroup s) ->
    handlesStep s s'
| handles_flipped (cam : Vector3.t) :
    isDragging s' = isDragging s ->
    isDragging s = false ->
    Group.children (gizmoGroup s')
    = map (flipHandle cam) (Group.children (gizmoGroup s)) ->
    handlesStep s s'
| handles_built (f : Node -> Node) :
    isDragging s' = isDragging s ->
    f = id \/ (exists cam, f = flipHandle cam) ->
    Group.children (gizmoGroup s') = map f (gizmoChildren (config s)) ->
    handlesStep s s'
| handles_highlighted (a : Axis) :
    isDragging s' = true ->
    Group.children (gizmoGroup s')
    = map (highlight a (Colors.active (Config.colors (config s))))
        (Group.children (gizmoGroup s)) ->
    handlesStep s s'
| handles_reset :
    isDragging s = true ->
    isDragging s' = false ->
    Group.children (gizmoGroup s')
    = map reset (Group.children (gizmoGroup s)) ->
    handlesStep s s'.

(** The one way a call can throw: a pointer move during a drag, with
    nothing attached, whose ray hits the drag plane. *)
Definition moveOnDetachedDrag (op : Op) (s : State) : Prop :=
  exists e,
    op = pointer e
    /\ (Event.type e = mousemove \/ Event.type e = touchmove)
    /\ listening s = true
    /\ isDragging s = true
    /\ attachedObject s = None
    /\ Ray.intersectPlane (pointerRay e s) (_dragPlane s) <> None.

End FurtherVocabulary.

(** ** Further concrete scenes *)

Module Scene2.

(** The camera and ray caster of [Scene.ortho], except that a ray which
    starts within a quarter unit of the point (0, 0) hits the central
    sphere first and the hit cylinder of the y handle behind it. *)
Definition centre : Three := {|
  Camera := Vector3.t;
  cameraPosition c := c;
  getWorldDirection _ := Vector3.mk 0 0 (-1);
  setFromCamera m c :=
    Ray.mk (Vector3.mk (Vector3.x c + 4 * Vector2.x m)
                       (Vector3.y c + 4 * Vector2.y m)
                       (Vector3.z c))
           (Vector3.mk 0 0 (-1));
  intersectObjects r g :=
    let o := Ray.origin r in
    if (-0.25 <? Vector3.x o) && (Vector3.x o <? 0.25)
       && (-0.25 <? Vector3.y o) && (Vector3.y o <? 0.25)
    then [[0%nat]; [2%nat; 2%nat]] else []
|}.

(** The unrotated object attached to a new widget under [centre]. *)
Definition attached : State (three := centre) :=
  run (three := centre) [call_attach (Some Scene.upright)]
    (constructor (three := centre) Scene.cam 800 800 Options.empty).

(** A press in the middle of the window, the point (0, 0). *)
Definition pressCentre : Event.t := Scene.mouse_at mousedown 400 400.

(** A widget configured with a black x handle, the rotated object
    attached. *)
Definition black : State (three := Scene.ortho) :=
  run (three := Scene.ortho) [call_attach (Some Scene.turned)]
    (constructor (three := Scene.ortho) Scene.cam 800 800
       (Options.mk (Some (Colors.mk 0 0x00E676 0x2979FF 0xFFFFFF))
          None None None None None)).

End Scene2.

(** * Properties *)

(** ** The model at work on the concrete scene *)

Example callbackName_dragStart :
  callbackName "dragStart" = "onDragStart"%string.
Proof. reflexivity. Qed.

Example callbackName_empty : callbackName "" = "on"%string.
Proof. reflexivity. Qed.

(** A third of a turn about (1, 1, 1) takes the x axis to the y axis. *)
Example turned_x_is_world_y :
  Vector3.applyQuaternion (Vector3.mk 1 0 0)
    (Object3D.quaternion Scene.turned)
  = Vector3.mk 0 1 0.
Proof. vm_compute. reflexivity. Qed.

(** A ray along the plane it starts off misses it; a ray towards the
    plane hits it where expected. *)
Example intersectPlane_parallel :
  Ray.intersectPlane (Ray.mk (Vector3.mk 0 0 1) (Vector3.mk 1 0 0))
    (Plane.mk (Vector3.mk 0 0 1) 0)
  = None.
Proof. vm_compute. reflexivity. Qed.

Example intersectPlane_hit :
  Ray.intersectPlane (Ray.mk (Vector3.mk 0 2 10) (Vector3.mk 0 0 (-1)))
    (Plane.mk (Vector3.mk 0 0 (-1)) 0)
  = Some (Vector3.mk 0 2 0).
Proof. vm_compute. reflexivity. Qed.

(** The press starts a drag on the x axis and paints the x handle in the
    active colour; the release ends it and restores the base colour. *)
Example press_starts_drag :
  isDragging Scene.dragging = true
  /\ activeAxis Scene.dragging = Some axis_x
  /\ _startIntersection Scene.dragging = Vector3.mk 0 1 0
  /\ Scene.stickColor Scene.ready = Some 0xFF2A5F%Z
  /\ Scene.stickColor Scene.dragging = Some 0xFFFFFF%Z.
Proof. vm_compute. repeat split; reflexivity. Qed.

Example whole_drag :
  effects Scene.dragged = [Called 1%nat; Called 2%nat; Called 3%nat]
  /\ attachedObject Scene.dragged
     = Some (Object3D.set_position (Vector3.mk 0 1 0) Scene.turned)
  /\ isDragging Scene.dragged = false
  /\ activeAxis Scene.dragged = None
  /\ Scene.stickColor Scene.dragged = Some 0xFF2A5F%Z.
Proof. vm_compute. repeat split; reflexivity. Qed.

(** A touch that starts a drag is kept from scrolling the page. *)
Example touch_prevents_default :
  effects (after (three := Scene.ortho) (_handleDown Scene.touch) Scene.ready)
  = [PreventDefault]
  /\ isDragging
       (after (three := Scene.ortho) (_handleDown Scene.touch) Scene.ready)
     = true.
Proof. vm_compute. split; reflexivity. Qed.

(** Seen from behind (the camera at z = -10), the z handle is mirrored
    and the other two are not. *)
Example update_mirrors_z_handle :
  map (fun g => Vector3.y (scale g))
    (Group.children
       (gizmoGroup
          (run (three := Scene.ortho)
             [env_camera (three := Scene.ortho) (Vector3.mk 0 0 (-10));
              call_update]
             Scene.attached)))
  = [1; 1; 1; -1].
Proof. vm_compute. reflexivity. Qed.

(** ** Frame lemmas

    What a method leaves alone follows from its shape: one lemma per monad
    operation, applied along the body of the method. *)

(** Opens the methods of the class, down to the monad operations. *)
Ltac unfold_methods :=
  unfold exec, dispatch, attach, detach, on, update, dispose, _handleDown,
    _handleMove, _handleUp, _startDrag, aim, _buildGizmo, _addHandle,
    _updateVisuals, _highlightAxis, _resetColors, _trigger, _getAxisVector,
    preventDefault in *.

(** Opens the monad operations themselves (for short method bodies). *)
Ltac unfold_monad :=
  unfold after, updateAttached, when, mbind, M_bind, mret, M_ret, get,
    modify, throw in *.

Section Frames.
Context {three : Three}.

Lemma preserves_ret {A B} (f : State -> B) (a : A) : preserves f (mret a).
Proof. done. Qed.

Lemma preserves_get {B} (f : State -> B) : preserves f get.
Proof. done. Qed.

Lemma preserves_throw {A B} (f : State -> B) e :
  preserves f (throw (A := A) e).
Proof. done. Qed.

Lemma preserves_modify {B} (f : State -> B) g :
  (forall s, f (g s) = f s) -> preserves f (modify g).
Proof. intros H s. apply H. Qed.

Lemma preserves_updateAttached {B} (f : State -> B) g :
  (forall s o, attachedObject s = Some o ->
               f (set_attachedObject (Some (g o)) s) = f s) ->
  preserves f (updateAttached g).
Proof.
  intros H s. unfold after, updateAttached.
  destruct (attachedObject s) eqn:E; simpl; auto.
Qed.

Lemma preserves_bind {A C B} (f : State -> B) (m : M A) (k : A -> M C) :
  preserves f m -> (forall a, preserves f (k a)) -> preserves f (m ≫= k).
Proof.
  intros Hm Hk s. unfold after, mbind, M_bind.
  specialize (Hm s). unfold after in Hm.
  destruct (m s) as [[a|e] s'] eqn:E; simpl in *.
  - rewrite <- Hm. apply Hk.
  - done.
Qed.

Lemma preserves_when {B} (f : State -> B) b m :
  preserves f m -> preserves f (when b m).
Proof. intros H. destruct b; [done|apply preserves_ret]. Qed.

Lemma preserves_run {B} (f : State -> B) (P : Op -> Prop) :
  (forall op, P op -> preserves f (exec op)) ->
  forall ops s, Forall P ops -> f (run ops s) = f s.
Proof.
  intros H ops. induction ops as [|op ops IH]; intros s Hall; [done|].
  inversion Hall; subst. simpl. rewrite IH by done. by apply H.
Qed.

End Frames.

(** ** Weakest preconditions

    One rule per monad operation; a handler is verified by walking through
    its body with them, so that no step has to unfold a whole handler. *)

Section WeakestPreconditions.
Context {three : Three}.

Lemma wp_ret {A} (a : A) (Q : Outcome A -> State -> Prop) s :
  Q (Returned a) s -> wp (mret a) Q s.
Proof. exact id. Qed.

Lemma wp_get (Q : Outcome State -> State -> Prop) s :
  Q (Returned s) s -> wp get Q s.
Proof. exact id. Qed.

Lemma wp_modify g (Q : Outcome unit -> State -> Prop) s :
  Q (Returned tt) (g s) -> wp (modify g) Q s.
Proof. exact id. Qed.

Lemma wp_throw {A} e (Q : Outcome A -> State -> Prop) s :
  Q (Thrown e) s -> wp (throw (A := A) e) Q s.
Proof. exact id. Qed.

Lemma wp_bind {A B} (m : M A) (k : A -> M B)
    (Q : Outcome B -> State -> Prop) s :
  wp m (fun r s' =>
          match r with
          | Returned a => wp (k a) Q s'
          | Thrown e => Q (Thrown e) s'
          end) s ->
  wp (m ≫= k) Q s.
Proof.
  unfold wp, outcome, after, mbind, M_bind.
  destruct (m s) as [[a|e] s']; exact id.
Qed.

Lemma wp_when (b : bool) (m : M unit)
    (Q : Outcome unit -> State -> Prop) s :
  (if b then wp m Q s else Q (Returned tt) s) -> wp (when b m) Q s.
Proof. destruct b; exact id. Qed.

Lemma wp_updateAttached f (Q : Outcome unit -> State -> Prop) s :
  match attachedObject s with
  | Some o => Q (Returned tt) (set_attachedObject (Some (f o)) s)
  | None => Q (Thrown TypeError) s
  end ->
  wp (updateAttached f) Q s.
Proof.
  unfold wp, outcome, after, updateAttached.
  destruct (attachedObject s); exact id.
Qed.

(** A call whose effect on [f] is known from a frame lemma. *)
Lemma wp_preserves {A B} (f : State -> B) (m : M A) (P : B -> Prop) s :
  preserves f m -> P (f s) -> wp m (fun _ s' => P (f s')) s.
Proof. intros H HP. unfold wp. by rewrite H. Qed.

End WeakestPreconditions.

(** The projections and setters of the records, for [cbn]. *)
Ltac state_simpl :=
  cbn beta iota zeta delta
    [ fst snd
      camera innerWidth innerHeight config attachedObject gizmoGroup inScene
      ray mouse isDragging activeAxis _dragPlane _startIntersection
      _startPosition callbacks listening effects
      set_camera set_innerWidth set_innerHeight set_attachedObject
      set_gizmoGroup set_inScene set_ray set_mouse set_isDragging
      set_activeAxis set__dragPlane set__startIntersection
      set__startPosition set_callbacks set_listening set_effects
      Group.position Group.quaternion Group.scale Group.visible
      Group.children Group.set_position Group.set_quaternion
      Group.set_scale Group.set_visible Group.set_children
      Object3D.position Object3D.quaternion Object3D.scale
      Object3D.set_position isNull negb orb andb ] in *.

Ltac head_of t :=
  lazymatch t with
  | ?f _ => head_of f
  | _ => t
  end.

(** One step through the body of a handler. *)
Ltac wp_step :=
  lazymatch goal with
  | |- wp (mret _) _ _ => apply wp_ret
  | |- wp get _ _ => apply wp_get
  | |- wp (modify _) _ _ => apply wp_modify
  | |- wp (throw _) _ _ => apply wp_throw
  | |- wp (when _ _) _ _ => apply wp_when
  | |- wp (updateAttached _) _ _ => apply wp_updateAttached
  | |- wp (_ ≫= _) _ _ => apply wp_bind
  | |- wp (match ?x with _ => _ end) _ _ =>
      first [ match goal with H : x = _ |- _ => rewrite H end
            | destruct x eqn:? ]
  | |- wp (if ?b then _ else _) _ _ => destruct b eqn:?
  | |- match ?x with _ => _ end => destruct x eqn:?
  | |- wp ?m _ _ => let h := head_of m in unfold h
  end;
  state_simpl.

(** Closes [f (g s) = f s] when [g] writes nothing that [f] reads. *)
Ltac frame_side :=
  simpl; repeat (case_match; simpl); simplify_eq;
  repeat match goal with
         | H : attachedObject ?s = _ |- context [attachedObject ?s] =>
             rewrite H; simpl
         end;
  done.

Ltac frame_step :=
  first
    [ apply preserves_ret | apply preserves_get | apply preserves_throw
    | apply preserves_bind; [|intros ?]
    | apply preserves_when
    | apply preserves_modify; intros ?; frame_side
    | apply preserves_updateAttached; intros ? ? ?; frame_side
    | progress case_match ].

(** Proves [preserves f m] for a method [m] that never writes what [f]
    reads. *)
Ltac frame := intros; unfold_methods; repeat frame_step.

(** ** The callback table *)

Section CallbackTable.
Context {three : Three}.

Lemma constructor_hasCallbacks cam w h o :
  hasCallbacks (constructor cam w h o).
Proof. unfold hasCallbacks, constructor, callbackKeys. simpl. set_solver. Qed.

Lemma exec_callbacks op :
  (forall ev cb, op <> call_on ev cb) -> preserves callbacks (exec op).
Proof.
  intros Hop. destruct op; try (frame; fail).
  exfalso. by eapply Hop.
Qed.

Lemma on_hasCallbacks ev cb s :
  hasCallbacks s -> hasCallbacks (after (on ev cb) s).
Proof.
  unfold hasCallbacks, on. intros H. unfold_monad.
  destruct (callbacks s !! callbackName ev) eqn:E; [|done].
  cbn [snd callbacks set_callbacks].
  rewrite dom_insert_lookup_L; eauto.
Qed.

Lemma exec_hasCallbacks op s :
  hasCallbacks s -> hasCallbacks (after (exec op) s).
Proof.
  intros H.
  destruct op;
    try (unfold hasCallbacks; rewrite exec_callbacks; [done|congruence]).
  by apply on_hasCallbacks.
Qed.

Lemma run_hasCallbacks ops s : hasCallbacks s -> hasCallbacks (run ops s).
Proof.
  revert s. induction ops as [|op ops IH]; intros s H; [done|].
  simpl. apply IH. by apply exec_hasCallbacks.
Qed.

Lemma reachable_hasCallbacks s : reachable s -> hasCallbacks s.
Proof.
  intros (cam & w & h & o & ops & ->).
  apply run_hasCallbacks, constructor_hasCallbacks.
Qed.

Lemma hasCallbacks_lookup s name :
  hasCallbacks s -> name ∈ callbackKeys -> is_Some (callbacks s !! name).
Proof. intros H Hin. apply elem_of_dom. by rewrite H. Qed.

End CallbackTable.

(** ** Registering callbacks: [on] *)

Section OnMethod.
Context {three : Three}.

Lemma toUpperCase_D c :
  toUpperCase c = "D"%char -> c = "d"%char \/ c = "D"%char.
Proof.
  destruct c as [[] [] [] [] [] [] [] []]; vm_compute; intros H;
    first [discriminate H | by left | by right].
Qed.

Lemma toUpperCase_C c :
  toUpperCase c = "C"%char -> c = "c"%char \/ c = "C"%char.
Proof.
  destruct c as [[] [] [] [] [] [] [] []]; vm_compute; intros H;
    first [discriminate H | by left | by right].
Qed.

Lemma callbackName_key event name :
  name ∈ callbackKeys -> callbackName event = name ->
  (event, name) ∈ eventNames.
Proof.
  unfold callbackKeys, eventNames. intros Hin Hname.
  rewrite !elem_of_union, !elem_of_singleton in Hin.
  destruct event as [|c rest]; simpl in Hname.
  - destruct Hin as [[-> | ->] | ->]; discriminate Hname.
  - destruct Hin as [[-> | ->] | ->];
      injection Hname as Hc <-;
      (apply toUpperCase_D in Hc || apply toUpperCase_C in Hc);
      destruct Hc as [-> | ->];
      repeat first [apply list_elem_of_here | apply list_elem_of_further].
Qed.

Lemma eventNames_key event name :
  (event, name) ∈ eventNames ->
  name ∈ callbackKeys /\ callbackName event = name.
Proof.
  unfold eventNames, callbackKeys. intros H.
  repeat (apply elem_of_cons in H as [H|H];
          [injection H as -> ->; split; [set_solver|reflexivity]|]).
  by apply elem_of_nil in H.
Qed.

(** C10: on a widget in any reachable state, [on(event, callback)] with an
    event name other than dragStart, dragEnd or change (their first letter
    in either case) returns and leaves the whole state, the callback lists
    included, as it was; with one of these names it appends the callback at
    the end of the list of that name and changes nothing else. *)
Theorem C10_on_appends_or_ignores (s : State) (event : string) (cb : Callback) :
  reachable s ->
  (event ∉ eventNames.*1 -> on event cb s = (Returned tt, s))
  /\ (forall name, (event, name) ∈ eventNames ->
        exists l, callbacks s !! name = Some l
          /\ on event cb s
             = (Returned tt,
                set_callbacks (<[name := (l ++ [cb])%list]> (callbacks s)) s)).
Proof.
  intros Hs. apply reachable_hasCallbacks in Hs. split.
  - intros Hnot. unfold on. unfold_monad.
    destruct (callbacks s !! callbackName event) eqn:E; [|done].
    exfalso. apply Hnot.
    assert (callbackName event ∈ callbackKeys) as Hin.
    { unfold hasCallbacks in Hs. rewrite <- Hs. apply elem_of_dom. eauto. }
    apply list_elem_of_fmap. exists (event, callbackName event).
    split; [done|]. by apply callbackName_key.
  - intros name Hin. apply eventNames_key in Hin as [Hin Hname].
    destruct (hasCallbacks_lookup s name Hs Hin) as [l Hl].
    exists l. split; [done|].
    unfold on. unfold_monad. rewrite Hname, Hl. done.
Qed.

End OnMethod.

(** C10 at work: [on('change', 7)] on a new widget fills [onChange], and
    [on('click', 7)] changes nothing. *)
Lemma C10_on_witness :
  callbacks (after (three := Scene.ortho) (on "change" 7%nat) Scene.fresh)
    !! "onChange"%string = Some [7%nat]
  /\ on (three := Scene.ortho) "click" 7%nat Scene.fresh
     = (Returned tt, Scene.fresh).
Proof.
  assert (reachable (three := Scene.ortho) Scene.fresh) as Hr.
  { exists Scene.cam, 800%float, 800%float, Options.empty, []. reflexivity. }
  destruct (C10_on_appends_or_ignores (three := Scene.ortho)
              Scene.fresh "change" 7%nat Hr) as [_ Hyes].
  destruct (C10_on_appends_or_ignores (three := Scene.ortho)
              Scene.fresh "click" 7%nat Hr) as [Hno _].
  split.
  - destruct (Hyes "onChange"%string) as (l & Hl & Hon).
    + unfold eventNames.
      repeat first [apply list_elem_of_here | apply list_elem_of_further].
    + unfold after. rewrite Hon. simpl. rewrite lookup_insert_eq.
      vm_compute in Hl. injection Hl as <-. reflexivity.
  - apply Hno. vm_compute. intros H.
    repeat (apply elem_of_cons in H as [H|H]; [discriminate H|]).
    by apply elem_of_nil in H.
Defined.

(** ** Visibility and attachment *)

Section Visibility.
Context {three : Three}.

Lemma visibleIffAttached_intro s :
  Group.visible (gizmoGroup s) = negb (isNull (attachedObject s)) ->
  visibleIffAttached s.
Proof.
  unfold visibleIffAttached.
  destruct (Group.visible (gizmoGroup s)), (attachedObject s); simpl;
    intros H; split; done.
Qed.

Lemma visibleIffAttached_elim s :
  visibleIffAttached s ->
  Group.visible (gizmoGroup s) = negb (isNull (attachedObject s)).
Proof.
  unfold visibleIffAttached.
  destruct (Group.visible (gizmoGroup s)), (attachedObject s); simpl;
    intros [H1 H2]; try done.
  - exfalso. by apply H1.
  - by apply H2.
Qed.

Lemma exec_visibleAttached op :
  (forall o, op <> call_attach o) -> op <> call_detach ->
  preserves visibleAttached (exec op).
Proof.
  intros Ha Hd. unfold visibleAttached.
  destruct op; [exfalso; by eapply Ha | by destruct Hd | frame ..].
Qed.

Lemma buildGizmo_update_visibleAttached :
  preserves visibleAttached (_buildGizmo ≫= fun _ => update).
Proof. unfold visibleAttached. frame. Qed.

Lemma attach_visibleAttached o s :
  visibleAttached (after (attach o) s) = (negb (isNull o), isNull o).
Proof.
  change (wp (attach o)
            (fun _ s' => visibleAttached s' = (negb (isNull o), isNull o)) s).
  unfold attach. do 4 wp_step.
  apply (wp_preserves visibleAttached _
           (fun v => v = (negb (isNull o), isNull o))).
  - apply buildGizmo_update_visibleAttached.
  - reflexivity.
Qed.

Lemma attach_visibleIffAttached o s : visibleIffAttached (after (attach o) s).
Proof.
  apply visibleIffAttached_intro.
  pose proof (attach_visibleAttached o s) as H. unfold visibleAttached in H.
  injection H as -> ->. reflexivity.
Qed.

Lemma detach_visibleIffAttached s : visibleIffAttached (after detach s).
Proof. by apply visibleIffAttached_intro. Qed.

Lemma visibleIffAttached_same s s' :
  visibleAttached s' = visibleAttached s ->
  visibleIffAttached s -> visibleIffAttached s'.
Proof.
  unfold visibleAttached. intros [= H1 H2] H.
  apply visibleIffAttached_intro. rewrite H1, H2.
  by apply visibleIffAttached_elim.
Qed.

Lemma exec_visibleIffAttached op s :
  visibleIffAttached s -> visibleIffAttached (after (exec op) s).
Proof.
  intros H.
  destruct op as [o| | | | | | | |];
    [ apply attach_visibleIffAttached
    | apply detach_visibleIffAttached
    | .. ].
  all: apply (visibleIffAttached_same s); [|exact H].
  all: apply exec_visibleAttached; congruence.
Qed.

Lemma handlers_visibleIffAttached e s :
  visibleIffAttached s ->
  visibleIffAttached (after (_handleDown e) s)
  /\ visibleIffAttached (after (_handleMove e) s)
  /\ visibleIffAttached (after _handleUp s).
Proof.
  intros H.
  assert (preserves visibleAttached (_handleDown e)) as Hdown
    by (unfold visibleAttached; frame).
  assert (preserves visibleAttached (_handleMove e)) as Hmove
    by (unfold visibleAttached; frame).
  assert (preserves visibleAttached _handleUp) as Hup
    by (unfold visibleAttached; frame).
  repeat split; by apply (visibleIffAttached_same s).
Qed.

End Visibility.

(** C9, as amended: right after construction the group is visible (the
    library's default) although nothing is attached; every call of
    [attach] or [detach] makes [gizmoGroup.visible] true exactly when an
    object is attached, and from then on every operation keeps it so:
    the public methods, the dispatch of a pointer event, and each of the
    three handlers called directly. *)
Theorem C9_visible_iff_attached_once_attached_or_detached {three : Three} :
  (forall cam w h options,
     Group.visible (gizmoGroup (constructor cam w h options)) = true
     /\ attachedObject (constructor cam w h options) = None)
  /\ (forall o s, visibleIffAttached (after (attach o) s))
  /\ (forall s, visibleIffAttached (after detach s))
  /\ (forall op s,
        visibleIffAttached s -> visibleIffAttached (after (exec op) s))
  /\ (forall e s,
        visibleIffAttached s ->
        visibleIffAttached (after (_handleDown e) s)
        /\ visibleIffAttached (after (_handleMove e) s)
        /\ visibleIffAttached (after _handleUp s)).
Proof.
  split; [done|]. split; [apply attach_visibleIffAttached|].
  split; [apply detach_visibleIffAttached|].
  split; [apply exec_visibleIffAttached|apply handlers_visibleIffAttached].
Qed.

(** C9 as stated fails at its first half: on a new widget the group is
    visible and nothing is attached. *)
Lemma C9_counterexample :
  ~ (visibleIffAttached (three := Scene.ortho) Scene.fresh
     /\ forall op s,
          visibleIffAttached (three := Scene.ortho) s ->
          visibleIffAttached (after (exec op) s)).
Proof.
  intros [[Hvisible _] _]. by apply Hvisible.
Qed.

(** C9 at work: after [attach] and a pointer press on the x handle the
    invariant holds. *)
Lemma C9_witness :
  visibleIffAttached (three := Scene.ortho)
    (after (exec (pointer (Scene.mouse_at mousedown 400 300)))
       (after (attach (Some Scene.turned)) Scene.fresh)).
Proof.
  destruct (C9_visible_iff_attached_once_attached_or_detached
              (three := Scene.ortho)) as (_ & Hattach & _ & Hexec & _).
  apply Hexec, Hattach.
Defined.

(** ** Camera-relative scale and flipping: [update] *)

Section Update.
Context {three : Three}.

Lemma update_spec (s : State) (o : Object3D.t) :
  attachedObject s = Some o -> Group.visible (gizmoGroup s) = true ->
  let d :=
    Vector3.distanceTo (cameraPosition (camera s)) (Object3D.position o) in
  let g :=
    Group.set_scale (Vector3.mk (d * 0.09) (d * 0.09) (d * 0.09))
      (Group.set_quaternion (Object3D.quaternion o)
         (Group.set_position (Object3D.position o) (gizmoGroup s))) in
  update s
  = (Returned tt,
     if isDragging s then set_gizmoGroup g s
     else
       set_gizmoGroup
         (Group.set_children
            (map (flipHandle
                    (cameraInGizmoFrame (cameraPosition (camera s)) g))
               (Group.children g)) g) s).
Proof.
  intros Ho Hv d g. unfold update. unfold_monad.
  rewrite Ho, Hv. simpl. destruct (isDragging s); reflexivity.
Qed.

(** C6: with an object attached and the group visible, [update] returns
    and leaves the group scaled by the same factor on x, y and z, the
    distance from the camera position to the object's position times
    0.09, with the object's position and quaternion copied into it. *)
Theorem C6_update_scales_by_camera_distance (s : State) (o : Object3D.t) :
  attachedObject s = Some o ->
  Group.visible (gizmoGroup s) = true ->
  let d :=
    Vector3.distanceTo (cameraPosition (camera s)) (Object3D.position o) in
  outcome update s = Returned tt
  /\ Group.scale (gizmoGroup (after update s))
     = Vector3.mk (d * 0.09) (d * 0.09) (d * 0.09)
  /\ Group.position (gizmoGroup (after update s)) = Object3D.position o
  /\ Group.quaternion (gizmoGroup (after update s)) = Object3D.quaternion o.
Proof.
  intros Ho Hv d. unfold outcome, after.
  rewrite (update_spec s o Ho Hv). cbn [fst snd].
  destruct (isDragging s); done.
Qed.

Lemma flipHandle_userData cam g : userData (flipHandle cam g) = userData g.
Proof. unfold flipHandle. case_bool_decide; [|done]. by destruct g. Qed.

Lemma flipHandle_scale_y cam g a :
  UserData.type (userData g) = Some "handle"%string ->
  UserData.axis (userData g) = Some a ->
  Vector3.y (scale (flipHandle cam g))
  = if axisCoord a cam <? -0.2 then -1 else 1.
Proof.
  intros Ht Ha. unfold flipHandle. rewrite Ht, Ha.
  rewrite bool_decide_eq_true_2 by done.
  destruct g, a; simpl; repeat case_bool_decide; try done; simpl;
    rewrite ?orb_false_r; by destruct (_ <? _).
Qed.

(** C7, as amended: with an object attached, the group visible and no
    drag active, [update] leaves every handle mirrored (y scale [-1])
    when the camera position, minus the group position and turned by the
    conjugate of the group quaternion (the group's scale is not
    applied), lies below [-0.2] along the handle's axis, and upright (y
    scale [1]) otherwise; the handles themselves, their tags included,
    are those the group had.  With no object attached or the group
    hidden, [update] returns at once and leaves the whole state, the
    handles included, as it was. *)
Theorem C7_update_flips_handles_facing_away (s : State) :
  (forall o,
     attachedObject s = Some o ->
     Group.visible (gizmoGroup s) = true ->
     isDragging s = false ->
     flipsEveryHandle s
     /\ map userData (Group.children (gizmoGroup (after update s)))
        = map userData (Group.children (gizmoGroup s))
     /\ cameraInGizmoFrame (cameraPosition (camera s))
          (gizmoGroup (after update s))
        = Vector3.applyQuaternion
            (Vector3.sub (cameraPosition (camera s)) (Object3D.position o))
            (Quaternion.invert (Object3D.quaternion o)))
  /\ (attachedObject s = None \/ Group.visible (gizmoGroup s) = false ->
      update s = (Returned tt, s)).
Proof.
  split.
  - intros o Ho Hv Hd. unfold flipsEveryHandle, after.
    rewrite (update_spec s o Ho Hv), Hd. cbn [snd].
    state_simpl. split; [|split].
    + intros g a Hin Ht Ha.
      apply list_elem_of_fmap in Hin as (g0 & -> & _).
      rewrite flipHandle_userData in Ht, Ha.
      by apply flipHandle_scale_y.
    + rewrite <- list_fmap_compose. apply list_fmap_ext.
      intros i g _. apply flipHandle_userData.
    + reflexivity.
  - intros Hguard. unfold update. unfold_monad.
    destruct (attachedObject s) as [o|]; [|reflexivity].
    destruct Hguard as [Hn|Hv]; [discriminate Hn|]. by rewrite Hv.
Qed.

End Update.

(** C6 at work: ten units from the camera the group is scaled by
    [10 * 0.09] on every axis. *)
Lemma C6_witness :
  outcome (three := Scene.ortho) update Scene.attached = Returned tt
  /\ Group.scale
       (gizmoGroup (after (three := Scene.ortho) update Scene.attached))
     = Vector3.mk (10 * 0.09) (10 * 0.09) (10 * 0.09)
  /\ Group.position
       (gizmoGroup (after (three := Scene.ortho) update Scene.attached))
     = Vector3.mk 0 0 0
  /\ Group.quaternion
       (gizmoGroup (after (three := Scene.ortho) update Scene.attached))
     = Quaternion.new.
Proof.
  assert (attachedObject Scene.attached = Some Scene.upright) as Ho
    by (vm_compute; reflexivity).
  assert (Group.visible (gizmoGroup Scene.attached) = true) as Hv
    by (vm_compute; reflexivity).
  exact (C6_update_scales_by_camera_distance (three := Scene.ortho)
           Scene.attached Scene.upright Ho Hv).
Defined.

(** C7 as stated fails in two ways.  When nothing is attached [update]
    returns at once, so the x handle stays upright although the camera
    lies at [-10] along x.  And with the object attached and the group
    visible the handles follow the camera's offset before the group's
    scale is taken into account: with the camera at [-0.19] along x and
    the group scaled by about [0.9], the camera's local x coordinate is
    about [-0.211], below [-0.2], and the x handle stays upright. *)
Lemma C7_counterexample :
  (reachable Scene.detached
   /\ isDragging Scene.detached = false
   /\ ~ flipsEveryHandle (three := Scene.ortho) Scene.detached)
  /\ (reachable Scene.aside
      /\ attachedObject Scene.aside = Some Scene.upright
      /\ Group.visible (gizmoGroup Scene.aside) = true
      /\ isDragging Scene.aside = false
      /\ ~ flipsEveryHandleInLocalFrame (three := Scene.ortho) Scene.aside).
Proof.
  split.
  - split.
    { exists Scene.cam, 800, 800, Options.empty,
        [call_attach (Some Scene.upright); call_detach;
         env_camera (three := Scene.ortho) (Vector3.mk (-10) 0 0)].
      reflexivity. }
    split; [vm_compute; reflexivity|].
    unfold flipsEveryHandle. intros H.
    destruct (Group.children
                (gizmoGroup
                   (after (three := Scene.ortho) update Scene.detached))
                !! 1%nat) as [g|] eqn:Hg; [|vm_compute in Hg; discriminate Hg].
    specialize (H g axis_x (list_elem_of_lookup_2 _ _ _ Hg)).
    vm_compute in Hg. injection Hg as <-.
    specialize (H eq_refl eq_refl).
    apply (f_equal (fun v => v =? 1)) in H. vm_compute in H. discriminate H.
  - split.
    { exists Scene.cam, 800, 800, Options.empty,
        [call_attach (Some Scene.upright);
         env_camera (three := Scene.ortho) (Vector3.mk (-0.19) 0 10)].
      reflexivity. }
    split; [vm_compute; reflexivity|].
    split; [vm_compute; reflexivity|].
    split; [vm_compute; reflexivity|].
    unfold flipsEveryHandleInLocalFrame. intros H.
    destruct (Group.children
                (gizmoGroup
                   (after (three := Scene.ortho) update Scene.aside))
                !! 1%nat) as [g|] eqn:Hg; [|vm_compute in Hg; discriminate Hg].
    specialize (H g axis_x (list_elem_of_lookup_2 _ _ _ Hg)).
    vm_compute in Hg. injection Hg as <-.
    specialize (H eq_refl eq_refl).
    apply (f_equal (fun v => v =? 1)) in H. vm_compute in H. discriminate H.
Qed.

(** C7 at work: seen from the front, no handle of the attached widget is
    mirrored. *)
Lemma C7_witness :
  flipsEveryHandle (three := Scene.ortho) Scene.attached.
Proof.
  assert (attachedObject Scene.attached = Some Scene.upright) as Ho
    by (vm_compute; reflexivity).
  assert (Group.visible (gizmoGroup Scene.attached) = true) as Hv
    by (vm_compute; reflexivity).
  assert (isDragging Scene.attached = false) as Hd
    by (vm_compute; reflexivity).
  exact (proj1 (proj1 (C7_update_flips_handles_facing_away
                         (three := Scene.ortho) Scene.attached)
                  Scene.upright Ho Hv Hd)).
Defined.

(** ** The pointer handlers *)

Section Handlers.
Context {three : Three}.

Lemma trigger_spec name s :
  _trigger name s
  = match callbacks s !! name with
    | Some cbs => (Returned tt, set_effects (effects s ++ map Called cbs) s)
    | None => (Thrown TypeError, s)
    end.
Proof. unfold _trigger. unfold_monad. by destruct (callbacks s !! name). Qed.

Lemma trigger_reachable name s :
  hasCallbacks s -> name ∈ callbackKeys ->
  _trigger name s
  = (Returned tt, set_effects (effects s ++ triggered name s) s).
Proof.
  intros Hs Hin. rewrite trigger_spec. unfold triggered.
  by destruct (hasCallbacks_lookup s name Hs Hin) as [cbs ->].
Qed.

(** The prologue writes [mouse] and [ray] only. *)
Lemma aimed_spec e s :
  aimed e s
  = set_ray (pointerRay e s)
      (set_mouse
         (Vector2.mk (((_getEventPos e).1 / innerWidth s) * 2 - 1)
                     (- ((_getEventPos e).2 / innerHeight s) * 2 + 1)) s).
Proof. reflexivity. Qed.

(** What [_handleMove] does while a drag is active. *)
Lemma handleMove_spec e s :
  isDragging s = true ->
  let s0 :=
    if bool_decide (Event.type e = touchmove)
    then set_effects (effects s ++ [PreventDefault]) s else s in
  let s1 := aimed e s0 in
  _handleMove e s
  = match Ray.intersectPlane (pointerRay e s) (_dragPlane s) with
    | None => _trigger "onChange" s1
    | Some current =>
        match attachedObject s with
        | None => (Thrown TypeError, s1)
        | Some o =>
            let axisVec :=
              Vector3.normalize
                (Vector3.applyQuaternion
                   match activeAxis s with
                   | Some a => worldAxis a
                   | None => Vector3.mk 0 0 0
                   end
                   (Object3D.quaternion o)) in
            let amount :=
              Vector3.dot (Vector3.subVectors current (_startIntersection s))
                axisVec in
            _trigger "onChange"
              (set_attachedObject
                 (Some (Object3D.set_position
                          (Vector3.add (_startPosition s)
                             (Vector3.multiplyScalar axisVec amount)) o))
                 s1)
        end
    end.
Proof.
  intros Hd. unfold _handleMove, aimed, pointerRay, aimed, preventDefault,
    _getAxisVector, aim.
  unfold_monad. rewrite Hd. simpl.
  destruct (_getEventPos e) as [x y]. simpl.
  case_bool_decide; simpl;
    (destruct (Ray.intersectPlane _ _); simpl; [|done]);
    (destruct (attachedObject s) eqn:Ha; simpl; rewrite ?Ha; simpl;
       [|done]);
    by destruct (activeAxis s) as [[]|].
Qed.

Lemma aimed_frame e s :
  attachedObject (aimed e s) = attachedObject s
  /\ dragState (aimed e s) = dragState s
  /\ gizmoGroup (aimed e s) = gizmoGroup s
  /\ callbacks (aimed e s) = callbacks s
  /\ effects (aimed e s) = effects s
  /\ camera (aimed e s) = camera s.
Proof. by rewrite aimed_spec. Qed.

(** C2: while a drag is active, a pointer move whose ray misses the drag
    plane leaves the attached object as it was, its position included,
    and does nothing about the miss: the drag goes on with the same
    axis, plane, start position and start intersection, and the handles
    are untouched.  On a widget in a reachable state the handler
    returns. *)
Theorem C2_missed_plane_leaves_object (s : State) (e : Event.t) :
  isDragging s = true ->
  Ray.intersectPlane (pointerRay e s) (_dragPlane s) = None ->
  attachedObject (after (_handleMove e) s) = attachedObject s
  /\ dragState (after (_handleMove e) s) = dragState s
  /\ gizmoGroup (after (_handleMove e) s) = gizmoGroup s
  /\ (reachable s -> outcome (_handleMove e) s = Returned tt).
Proof.
  intros Hd Hmiss. unfold after, outcome.
  rewrite (handleMove_spec e s Hd), Hmiss. cbv zeta.
  rewrite trigger_spec, aimed_spec. state_simpl.
  assert (forall l, callbacks (if bool_decide (Event.type e = touchmove)
                               then set_effects l s else s)
                    = callbacks s) as Hcb by (intros; by case_bool_decide).
  rewrite Hcb.
  destruct (callbacks s !! "onChange"%string) as [cbs|] eqn:Hcbs;
    cbn [fst snd]; state_simpl.
  - repeat split; by case_bool_decide.
  - repeat split; try by case_bool_decide.
    intros Hs. apply reachable_hasCallbacks in Hs.
    destruct (hasCallbacks_lookup s "onChange" Hs) as [cbs Hsome].
    + unfold callbackKeys. set_solver.
    + congruence.
Qed.

(** While a drag is active and an object is attached (or the ray misses
    the plane), a pointer move calls every [onChange] callback once, in
    order, after the [preventDefault] of a touch event. *)
Lemma handleMove_triggers_onChange_once (s : State) (e : Event.t) :
  reachable s ->
  isDragging s = true ->
  (attachedObject s <> None
   \/ Ray.intersectPlane (pointerRay e s) (_dragPlane s) = None) ->
  outcome (_handleMove e) s = Returned tt
  /\ effects (after (_handleMove e) s)
     = (effects s
        ++ (if bool_decide (Event.type e = touchmove)
            then [PreventDefault] else [])
        ++ triggered "onChange" s)%list.
Proof.
  intros Hs Hd Hok. apply reachable_hasCallbacks in Hs.
  unfold after, outcome. rewrite (handleMove_spec e s Hd). cbv zeta.
  assert ("onChange"%string ∈ callbackKeys) as Hin
    by (unfold callbackKeys; set_solver).
  destruct (Ray.intersectPlane (pointerRay e s) (_dragPlane s)) as [p|].
  - destruct Hok as [Hok|Hok]; [|discriminate Hok].
    destruct (attachedObject s) as [o|]; [|done].
    rewrite trigger_reachable; [|by case_bool_decide|done].
    unfold triggered. rewrite aimed_spec. state_simpl.
    case_bool_decide; state_simpl; by rewrite <- ?(assoc_L (++)).
  - rewrite trigger_reachable; [|by case_bool_decide|done].
    unfold triggered. rewrite aimed_spec. state_simpl.
    case_bool_decide; state_simpl; by rewrite <- ?(assoc_L (++)).
Qed.

(** What [_handleDown] does. *)
Lemma handleDown_spec e s :
  _handleDown e s
  = if isNull (attachedObject s) || negb (Group.visible (gizmoGroup s))
    then (Returned tt, s)
    else
      match intersectObjects (pointerRay e s) (gizmoGroup s) with
      | [] => (Returned tt, aimed e s)
      | obj :: _ =>
          match ancestorAxis (Group.children (gizmoGroup s)) (rev obj) with
          | None => (Returned tt, aimed e s)
          | Some axis =>
              (when (bool_decide (Event.type e = touchstart)) preventDefault
               ≫= fun _ =>
                 _startDrag axis (_getEventPos e).1 (_getEventPos e).2)
                (aimed e s)
          end
      end.
Proof.
  unfold _handleDown, pointerRay, aimed, aim. unfold_monad.
  destruct (isNull (attachedObject s) || negb (Group.visible (gizmoGroup s)));
    [done|].
  destruct (_getEventPos e) as [x y]. simpl.
  destruct (intersectObjects _ _) as [|obj rest]; [done|].
  by destruct (ancestorAxis _ _).
Qed.

(** No object on the path from the hit to the group carries an axis. *)
Lemma ancestorAxis_None nodes leafFirst :
  (forall q, q `prefix_of` rev leafFirst -> axisAt nodes q = None) ->
  ancestorAxis nodes leafFirst = None.
Proof.
  induction leafFirst as [|i up IH]; intros H.
  - reflexivity.
  - cbn [ancestorAxis]. rewrite (H (rev (i :: up))) by done.
    apply IH. intros q Hq. apply H.
    change (rev (i :: up)) with (rev up ++ [i])%list. by apply prefix_app_r.
Qed.

(** C4: a press with no object attached, or whose ray hits no object of
    the gizmo that carries an axis tag itself or below a tagged ancestor,
    returns without starting a drag ([isDragging] and [activeAxis] stay
    as they were, so [false] and [null] when no drag is active), leaves
    the attached object and the handles as they were, and calls no
    callback (nor [preventDefault]). *)
Theorem C4_press_without_handle_does_nothing (s : State) (e : Event.t) :
  (attachedObject s = None
   \/ forall hit,
        hit ∈ intersectObjects (pointerRay e s) (gizmoGroup s) ->
        forall q, q `prefix_of` hit ->
                  axisAt (Group.children (gizmoGroup s)) q = None) ->
  outcome (_handleDown e) s = Returned tt
  /\ (isDragging s = false -> isDragging (after (_handleDown e) s) = false)
  /\ (activeAxis s = None -> activeAxis (after (_handleDown e) s) = None)
  /\ dragState (after (_handleDown e) s) = dragState s
  /\ attachedObject (after (_handleDown e) s) = attachedObject s
  /\ effects (after (_handleDown e) s) = effects s
  /\ gizmoGroup (after (_handleDown e) s) = gizmoGroup s
  /\ callbacks (after (_handleDown e) s) = callbacks s.
Proof.
  intros H. unfold after, outcome. rewrite handleDown_spec.
  destruct (isNull (attachedObject s) || negb (Group.visible (gizmoGroup s)))
    eqn:Hguard; [done|].
  destruct H as [Hnone|Hhits].
  { rewrite Hnone in Hguard. discriminate Hguard. }
  pose proof (aimed_frame e s) as (Ha & Hds & Hg & Hc & He & _).
  assert (isDragging (aimed e s) = isDragging s
          /\ activeAxis (aimed e s) = activeAxis s) as [Hdr Hax]
    by (by rewrite aimed_spec).
  destruct (intersectObjects (pointerRay e s) (gizmoGroup s))
    as [|obj rest] eqn:Hi.
  { cbn [fst snd]. rewrite Hdr, Hax. done. }
  rewrite ancestorAxis_None.
  { cbn [fst snd]. rewrite Hdr, Hax. done. }
  rewrite rev_involutive. apply Hhits. left.
Qed.

End Handlers.

(** C2 at work: a drag is active on [Scene.dragging]; once the camera
    has gone behind the drag plane its rays lead away from the plane, and
    a move changes nothing. *)
Lemma C2_witness :
  let s := after (three := Scene.ortho)
             (exec (env_camera (three := Scene.ortho) (Vector3.mk 0 0 (-10))))
             Scene.dragging in
  let e := Scene.move in
  attachedObject (after (_handleMove e) s) = attachedObject s
  /\ dragState (after (_handleMove e) s) = dragState s
  /\ gizmoGroup (after (_handleMove e) s) = gizmoGroup s
  /\ (reachable s -> outcome (_handleMove e) s = Returned tt).
Proof.
  intros s e.
  apply (C2_missed_plane_leaves_object (three := Scene.ortho) s e);
    vm_compute; reflexivity.
Defined.

(** C4 at work: a press far from every handle, and a press with nothing
    attached. *)
Lemma C4_witness :
  dragState (after (three := Scene.ortho)
               (_handleDown (Scene.mouse_at mousedown 10 10)) Scene.attached)
  = dragState Scene.attached
  /\ effects (after (three := Scene.ortho)
                (_handleDown Scene.press) Scene.fresh)
     = [].
Proof.
  split.
  - refine (proj1 (proj2 (proj2 (proj2
      (C4_press_without_handle_does_nothing (three := Scene.ortho)
         Scene.attached (Scene.mouse_at mousedown 10 10) _))))).
    right. intros hit Hhit. vm_compute in Hhit. by apply elem_of_nil in Hhit.
  - refine (proj1 (proj2 (proj2 (proj2 (proj2 (proj2
      (C4_press_without_handle_does_nothing (three := Scene.ortho)
         Scene.fresh Scene.press _))))))).
    left. reflexivity.
Defined.

(** C8 fails after [detach] during a drag: [isDragging] is still true,
    the next pointer move hits the drag plane, reads
    [this.attachedObject.quaternion] of [null] and throws before
    [_trigger('onChange')]: the registered callback is not called. *)
Theorem C8_move_after_detach_throws :
  reachable Scene.dropped
  /\ isDragging Scene.dropped = true
  /\ triggered "onChange" Scene.dropped = [Called 7%nat]
  /\ outcome (three := Scene.ortho) (_handleMove Scene.move) Scene.dropped
     = Thrown TypeError
  /\ effects
       (after (three := Scene.ortho) (_handleMove Scene.move) Scene.dropped)
     = effects Scene.dropped.
Proof.
  split.
  { exists Scene.cam, 800, 800, Options.empty,
      [call_on "change" 7%nat; call_attach (Some Scene.turned);
       pointer Scene.press; call_detach].
    reflexivity. }
  vm_compute. repeat split; reflexivity.
Qed.

(** ** A drag from press to release *)

Section Drag.
Context {three : Three}.

Lemma exec_attachedShape op :
  keepsObject op = true -> preserves attachedShape (exec op).
Proof.
  intros H. unfold attachedShape.
  destruct op; try discriminate H; frame.
Qed.

(** C5: over any run of pointer events and other operations of the
    widget (everything but [attach], [detach] and writes to the object
    from outside), so over every drag from press to release, the
    attached object keeps its quaternion and its scale: the widget
    writes its position only. *)
Theorem C5_drag_writes_position_only
    (ops : list Op) (s : State) (o : Object3D.t) :
  Forall (fun op => keepsObject op = true) ops ->
  attachedObject s = Some o ->
  exists o',
    attachedObject (run ops s) = Some o'
    /\ Object3D.quaternion o' = Object3D.quaternion o
    /\ Object3D.scale o' = Object3D.scale o.
Proof.
  intros Hops Ho.
  pose proof (preserves_run attachedShape _ exec_attachedShape ops s Hops)
    as H.
  unfold attachedShape in H. rewrite Ho in H.
  destruct (attachedObject (run ops s)) as [o'|]; [|discriminate H].
  injection H as Hq Hs. by exists o'.
Qed.

Lemma startDrag_spec a x y s o :
  hasCallbacks s ->
  attachedObject s = Some o ->
  let plane :=
    Plane.setFromNormalAndCoplanarPoint (getWorldDirection (camera s))
      (Object3D.position o) in
  wp (_startDrag a x y)
    (fun r s' =>
       r = Returned tt
       /\ dragState s'
          = (true, Some a, plane, Object3D.position o,
             default Vector3.new (Ray.intersectPlane (ray s) plane))
       /\ attachedObject s' = Some o
       /\ callbacks s' = callbacks s)
    s.
Proof.
  intros Hs Ho plane.
  destruct (hasCallbacks_lookup s "onDragStart" Hs) as [cbs Hcbs].
  { unfold callbackKeys. set_solver. }
  unfold _startDrag. do 4 wp_step. unfold _highlightAxis. do 2 wp_step.
  unfold _trigger. do 5 wp_step. do 8 wp_step.
  done.
Qed.

Lemma handleDown_starts_drag s e o hit rest a :
  hasCallbacks s ->
  attachedObject s = Some o ->
  Group.visible (gizmoGroup s) = true ->
  intersectObjects (pointerRay e s) (gizmoGroup s) = hit :: rest ->
  ancestorAxis (Group.children (gizmoGroup s)) (rev hit) = Some a ->
  let plane :=
    Plane.setFromNormalAndCoplanarPoint (getWorldDirection (camera s))
      (Object3D.position o) in
  outcome (_handleDown e) s = Returned tt
  /\ dragState (after (_handleDown e) s)
     = (true, Some a, plane, Object3D.position o,
        default Vector3.new (Ray.intersectPlane (pointerRay e s) plane))
  /\ attachedObject (after (_handleDown e) s) = Some o
  /\ callbacks (after (_handleDown e) s) = callbacks s.
Proof.
  intros Hs Ho Hv Hi Ha plane. unfold outcome, after.
  rewrite handleDown_spec, Ho, Hv, Hi, Ha. cbn [isNull negb orb].
  set (s1 := aimed e s).
  assert (hasCallbacks s1 /\ attachedObject s1 = Some o
          /\ camera s1 = camera s /\ ray s1 = pointerRay e s
          /\ callbacks s1 = callbacks s) as (Hs1 & Ho1 & Hc1 & Hr1 & Hcb1).
  { subst s1. unfold hasCallbacks. rewrite aimed_spec. by state_simpl. }
  clearbody s1.
  match goal with
  | |- context [(?m s1).1] =>
      assert (wp m
                (fun r s' =>
                   r = Returned tt
                   /\ dragState s'
                      = (true, Some a, plane, Object3D.position o,
                         default Vector3.new
                           (Ray.intersectPlane (pointerRay e s) plane))
                   /\ attachedObject s' = Some o
                   /\ callbacks s' = callbacks s) s1) as W
  end.
  { apply wp_bind, wp_when. subst plane. rewrite <- Hc1, <- Hr1, <- Hcb1.
    case_bool_decide.
    - unfold preventDefault. apply wp_modify.
      apply (startDrag_spec a _ _ (set_effects _ s1) o); done.
    - by apply startDrag_spec. }
  exact W.
Qed.

Lemma exec_dragState op :
  duringDrag op = true -> preserves dragState (exec op).
Proof.
  intros H. unfold dragState.
  destruct op as [| | | | |e| | |]; try discriminate H; try (frame; fail).
  unfold exec, dispatch. simpl in H.
  destruct (Event.type e) eqn:He; try discriminate H;
    (apply preserves_bind; [apply preserves_get|intros s0]);
    (destruct (negb (listening s0)); [apply preserves_ret|]);
    frame.
Qed.

Lemma handleDown_hasCallbacks e s :
  hasCallbacks s -> hasCallbacks (after (_handleDown e) s).
Proof.
  unfold hasCallbacks. intros H.
  assert (preserves callbacks (_handleDown e)) as Hp by frame.
  by rewrite Hp.
Qed.

(** The move of the object on a pointer move that hits the drag plane,
    in terms of what the press recorded. *)
Lemma drag_move_spec s0 e0 o0 hit rest a ops e o :
  hasCallbacks s0 ->
  attachedObject s0 = Some o0 ->
  Group.visible (gizmoGroup s0) = true ->
  intersectObjects (pointerRay e0 s0) (gizmoGroup s0) = hit :: rest ->
  ancestorAxis (Group.children (gizmoGroup s0)) (rev hit) = Some a ->
  Forall (fun op => duringDrag op = true) ops ->
  let plane :=
    Plane.setFromNormalAndCoplanarPoint (getWorldDirection (camera s0))
      (Object3D.position o0) in
  let s := run ops (after (_handleDown e0) s0) in
  attachedObject s = Some o ->
  let axisUnit :=
    Vector3.normalize
      (Vector3.applyQuaternion (worldAxis a) (Object3D.quaternion o)) in
  dragState s
  = (true, Some a, plane, Object3D.position o0,
     default Vector3.new (Ray.intersectPlane (pointerRay e0 s0) plane))
  /\ outcome (_handleMove e) s = Returned tt
  /\ attachedObject (after (_handleMove e) s)
     = match Ray.intersectPlane (pointerRay e s) plane with
       | Some p =>
           Some (Object3D.set_position
                   (Vector3.add (Object3D.position o0)
                      (Vector3.multiplyScalar axisUnit
                         (Vector3.dot
                            (Vector3.sub p
                               (default Vector3.new
                                  (Ray.intersectPlane (pointerRay e0 s0)
                                     plane)))
                            axisUnit)))
                   o)
       | None => Some o
       end.
Proof.
  intros Hs0 Ho0 Hv Hi Ha Hops plane s Ho axisUnit.
  destruct (handleDown_starts_drag s0 e0 o0 hit rest a Hs0 Ho0 Hv Hi Ha)
    as (_ & Hdrag & _ & _).
  assert (dragState s = dragState (after (_handleDown e0) s0)) as Hkeep
    by (apply (preserves_run dragState _ exec_dragState); exact Hops).
  rewrite Hdrag in Hkeep. split; [exact Hkeep|].
  assert (hasCallbacks s) as Hs
    by (apply run_hasCallbacks, handleDown_hasCallbacks, Hs0).
  unfold dragState in Hkeep. injection Hkeep as Hd Hax Hpl Hsp Hsi.
  unfold outcome, after. rewrite (handleMove_spec e s Hd). cbv zeta.
  rewrite Hpl, Ho, Hax, Hsp, Hsi. fold plane.
  assert ("onChange"%string ∈ callbackKeys) as Hin
    by (unfold callbackKeys; set_solver).
  destruct (Ray.intersectPlane (pointerRay e s) plane) as [p0|];
    (rewrite trigger_reachable;
       [ cbn [fst snd]; split; [done|];
         rewrite ?aimed_spec; state_simpl; unfold Vector3.subVectors;
         try done; by case_bool_decide
       | unfold hasCallbacks; rewrite aimed_spec; state_simpl;
         by case_bool_decide
       | done ]).
Qed.

End Drag.

Section DragClaims.
Context {three : Three}.

(** C3: after a press whose ray hit a handle of axis [a] and the drag
    plane at [i0], and any run of moves and other operations that leave
    the drag going, a pointer move whose ray hits the drag plane at [p]
    returns and sets the position of the attached object [o] to
    [start + ((p - i0) . u) * u], where [start] is the object's position
    at the press, [u] the normalised axis vector ([a]'s unit vector
    turned by the object's quaternion), and the drag plane passes
    through [start] with the camera's world direction at the press as
    its normal. *)
Theorem C3_drag_projects_pointer_offset_on_axis
    (s0 : State) (e0 : Event.t) (o0 : Object3D.t)
    (hit : Path) (rest : list Path) (a : Axis) (i0 : Vector3.t)
    (ops : list Op) (e : Event.t) (o : Object3D.t) (p : Vector3.t) :
  reachable s0 ->
  attachedObject s0 = Some o0 ->
  Group.visible (gizmoGroup s0) = true ->
  intersectObjects (pointerRay e0 s0) (gizmoGroup s0) = hit :: rest ->
  ancestorAxis (Group.children (gizmoGroup s0)) (rev hit) = Some a ->
  let plane :=
    Plane.setFromNormalAndCoplanarPoint (getWorldDirection (camera s0))
      (Object3D.position o0) in
  Ray.intersectPlane (pointerRay e0 s0) plane = Some i0 ->
  Forall (fun op => duringDrag op = true) ops ->
  let s := run ops (after (_handleDown e0) s0) in
  attachedObject s = Some o ->
  Ray.intersectPlane (pointerRay e s) plane = Some p ->
  let axisUnit :=
    Vector3.normalize
      (Vector3.applyQuaternion (worldAxis a) (Object3D.quaternion o)) in
  isDragging s = true
  /\ activeAxis s = Some a
  /\ _dragPlane s = plane
  /\ _startPosition s = Object3D.position o0
  /\ _startIntersection s = i0
  /\ outcome (_handleMove e) s = Returned tt
  /\ attachedObject (after (_handleMove e) s)
     = Some (Object3D.set_position
               (Vector3.add (Object3D.position o0)
                  (Vector3.multiplyScalar axisUnit
                     (Vector3.dot (Vector3.sub p i0) axisUnit)))
               o).
Proof.
  intros Hs0 Ho0 Hv Hi Ha plane Hi0 Hops s Ho Hp axisUnit.
  apply reachable_hasCallbacks in Hs0.
  destruct (drag_move_spec s0 e0 o0 hit rest a ops e o
              Hs0 Ho0 Hv Hi Ha Hops Ho) as (Hdrag & Hret & Hmove).
  fold plane in Hdrag, Hmove. fold s in Hdrag, Hret, Hmove.
  rewrite Hi0 in Hdrag, Hmove. rewrite Hp in Hmove. cbn [default] in *.
  unfold dragState in Hdrag. injection Hdrag as Hd Hax Hpl Hsp Hsi.
  repeat split; assumption.
Qed.

Lemma normalize_worldAxis a :
  Vector3.normalize (Vector3.applyQuaternion (worldAxis a) Quaternion.new)
  = worldAxis a.
Proof. destruct a; vm_compute; reflexivity. Qed.

(** C1, as amended: after a press on a handle of axis [a], with the
    object attached and the group visible, and any run of pointer moves,
    calls of [update], [on] and [dispose] and changes of the camera, the
    window and the object's transform (no [attach], [detach], press or
    release in between), the drag on [a] is active, and a pointer move
    whose ray hits the drag plane puts the attached object at its
    position at the press plus a scalar multiple of the unit vector of
    the object's own axis [a]: the world-frame unit vector of [a] turned
    by the object's quaternion and normalised.  A move whose ray misses
    the plane leaves the position as it was.  When the object's
    quaternion is the identity, that unit vector is the world-frame unit
    vector of [a]. *)
Theorem C1_drag_moves_along_object_axis
    (s0 : State) (e0 : Event.t) (o0 : Object3D.t)
    (hit : Path) (rest : list Path) (a : Axis)
    (ops : list Op) (e : Event.t) (o : Object3D.t) :
  reachable s0 ->
  attachedObject s0 = Some o0 ->
  Group.visible (gizmoGroup s0) = true ->
  intersectObjects (pointerRay e0 s0) (gizmoGroup s0) = hit :: rest ->
  ancestorAxis (Group.children (gizmoGroup s0)) (rev hit) = Some a ->
  Forall (fun op => duringDrag op = true) ops ->
  let s := run ops (after (_handleDown e0) s0) in
  attachedObject s = Some o ->
  let axisUnit :=
    Vector3.normalize
      (Vector3.applyQuaternion (worldAxis a) (Object3D.quaternion o)) in
  isDragging s = true
  /\ activeAxis s = Some a
  /\ (exists o',
        attachedObject (after (_handleMove e) s) = Some o'
        /\ match Ray.intersectPlane (pointerRay e s) (_dragPlane s) with
           | Some _ =>
               movesAlong axisUnit (Object3D.position o0)
                 (Object3D.position o')
           | None => Object3D.position o' = Object3D.position o
           end)
  /\ (Object3D.quaternion o = Quaternion.new -> axisUnit = worldAxis a).
Proof.
  intros Hs0 Ho0 Hv Hi Ha Hops s Ho axisUnit.
  apply reachable_hasCallbacks in Hs0.
  destruct (drag_move_spec s0 e0 o0 hit rest a ops e o
              Hs0 Ho0 Hv Hi Ha Hops Ho) as (Hdrag & _ & Hmove).
  fold s in Hdrag, Hmove.
  unfold dragState in Hdrag. injection Hdrag as Hd Hax Hpl Hsp Hsi.
  split; [exact Hd|]. split; [exact Hax|]. split.
  - rewrite Hpl, Hmove.
    destruct (Ray.intersectPlane (pointerRay e s) _) as [p|].
    + eexists. split; [reflexivity|]. cbn [Object3D.position
        Object3D.set_position]. by eexists.
    + by exists o.
  - intros Hq. subst axisUnit. rewrite Hq. apply normalize_worldAxis.
Qed.

End DragClaims.

(** The press and the move of the concrete scene, step by step. *)
Lemma scene_press_facts :
  reachable Scene.ready
  /\ attachedObject Scene.ready = Some Scene.turned
  /\ Group.visible (gizmoGroup Scene.ready) = true
  /\ @intersectObjects Scene.ortho
       (pointerRay Scene.press Scene.ready) (gizmoGroup Scene.ready)
     = [[1%nat; 2%nat]]
  /\ ancestorAxis (Group.children (gizmoGroup Scene.ready))
       (rev [1%nat; 2%nat])
     = Some axis_x.
Proof.
  split.
  { exists Scene.cam, 800, 800, Options.empty,
      [call_on "change" 7%nat; call_attach (Some Scene.turned)].
    reflexivity. }
  repeat split; vm_compute; reflexivity.
Qed.

(** C3 at work: the press at the point (0, 1) on the x handle of the
    rotated object, a redraw, then a move to the point (0, 2): the
    object goes from the origin to (0, 1, 0). *)
Lemma C3_witness :
  let s := run (three := Scene.ortho) [call_update]
             (after (_handleDown Scene.press) Scene.ready) in
  attachedObject (after (_handleMove Scene.move) s)
  = Some (Object3D.set_position (Vector3.mk 0 1 0) Scene.turned).
Proof.
  intros s.
  destruct scene_press_facts as (Hr & Ho & Hv & Hi & Ha).
  destruct (C3_drag_projects_pointer_offset_on_axis (three := Scene.ortho)
              Scene.ready Scene.press Scene.turned [1%nat; 2%nat] [] axis_x
              (Vector3.mk 0 1 0) [call_update] Scene.move Scene.turned
              (Vector3.mk 0 2 0) Hr Ho Hv Hi Ha)
    as (_ & _ & _ & _ & _ & _ & Hmove).
  - vm_compute. reflexivity.
  - repeat constructor.
  - vm_compute. reflexivity.
  - vm_compute. reflexivity.
  - fold s in Hmove. rewrite Hmove. vm_compute. reflexivity.
Defined.

(** No multiple of the world x axis leads from the origin to the point
    (0, 1, 0): for every number [k], [0 + 0 * k] is [0], [-0] or NaN. *)
Lemma not_along_world_x :
  ~ movesAlong (worldAxis axis_x) (Vector3.mk 0 0 0) (Vector3.mk 0 1 0).
Proof.
  intros [k Hk]. apply (f_equal Vector3.y) in Hk.
  cbn [worldAxis Vector3.add Vector3.multiplyScalar Vector3.x Vector3.y
       Vector3.z] in Hk.
  symmetry in Hk. apply (f_equal Prim2SF) in Hk.
  rewrite add_spec, mul_spec in Hk.
  destruct (Prim2SF k) as [sg|sg| |sg m e]; vm_compute in Hk;
    try discriminate Hk.
  all: destruct sg; discriminate Hk.
Qed.

(** C1 as stated fails for a rotated object: the rotated object's x
    handle is dragged from the point (0, 1) to the point (0, 2) and the
    object goes from the origin to (0, 1, 0), along the world y axis;
    no multiple of the world x axis leads there. *)
Lemma C1_counterexample :
  reachable Scene.dragging
  /\ isDragging Scene.dragging = true
  /\ activeAxis Scene.dragging = Some axis_x
  /\ _startPosition Scene.dragging = Vector3.mk 0 0 0
  /\ (exists o',
        attachedObject
          (after (three := Scene.ortho) (_handleMove Scene.move)
             Scene.dragging) = Some o'
        /\ ~ movesAlong (worldAxis axis_x)
               (_startPosition Scene.dragging) (Object3D.position o')).
Proof.
  split.
  { exists Scene.cam, 800, 800, Options.empty,
      [call_on "change" 7%nat; call_attach (Some Scene.turned);
       pointer Scene.press].
    reflexivity. }
  split; [vm_compute; reflexivity|].
  split; [vm_compute; reflexivity|].
  split; [vm_compute; reflexivity|].
  exists (Object3D.set_position (Vector3.mk 0 1 0) Scene.turned).
  split; [vm_compute; reflexivity|].
  exact not_along_world_x.
Qed.

(** C1 at work on the same drag: the object moves along its own x axis,
    which is the world y axis. *)
Lemma C1_witness :
  let s := run (three := Scene.ortho) [call_update]
             (after (_handleDown Scene.press) Scene.ready) in
  exists o',
    attachedObject (after (_handleMove Scene.move) s) = Some o'
    /\ match Ray.intersectPlane (pointerRay Scene.move s) (_dragPlane s) with
       | Some _ =>
           movesAlong
             (Vector3.normalize
                (Vector3.applyQuaternion (worldAxis axis_x)
                   (Object3D.quaternion Scene.turned)))
             (Object3D.position Scene.turned) (Object3D.position o')
       | None => Object3D.position o' = Object3D.position Scene.turned
       end.
Proof.
  intros s.
  destruct scene_press_facts as (Hr & Ho & Hv & Hi & Ha).
  destruct (C1_drag_moves_along_object_axis (three := Scene.ortho)
              Scene.ready Scene.press Scene.turned [1%nat; 2%nat] [] axis_x
              [call_update] Scene.move Scene.turned Hr Ho Hv Hi Ha)
    as (_ & _ & Hmove & _).
  - repeat constructor.
  - vm_compute. reflexivity.
  - exact Hmove.
Defined.

(** C5 at work: the drag of the concrete scene, from press to release. *)
Lemma C5_witness :
  exists o',
    attachedObject
      (run (three := Scene.ortho)
         [pointer Scene.press; call_update; pointer Scene.move;
          pointer Scene.release]
         Scene.ready) = Some o'
    /\ Object3D.quaternion o' = Object3D.quaternion Scene.turned
    /\ Object3D.scale o' = Object3D.scale Scene.turned.
Proof.
  apply (C5_drag_writes_position_only (three := Scene.ortho)).
  - repeat constructor.
  - vm_compute. reflexivity.
Defined.

(** * Further properties of the class *)

(** ** Building the gizmo: [attach], [_buildGizmo], [_addHandle] *)

Section Build.
Context {three : Three}.

Lemma buildGizmo_children s :
  wp _buildGizmo
    (fun r s' =>
       r = Returned tt
       /\ s' = set_gizmoGroup
                 (Group.set_children (gizmoChildren (config s)) (gizmoGroup s))
                 s)
    s.
Proof.
  unfold _buildGizmo. do 6 wp_step. unfold _addHandle. repeat wp_step.
  split; reflexivity.
Qed.

Lemma wp_run {A} (m : M A) (r : Outcome A) (s s' : State) :
  wp m (fun r0 s0 => r0 = r /\ s0 = s') s -> m s = (r, s').
Proof.
  unfold wp, outcome, after. destruct (m s) as [r0 s0]. simpl.
  by intros [-> ->].
Qed.

Lemma buildGizmo_run s :
  _buildGizmo s
  = (Returned tt,
     set_gizmoGroup
       (Group.set_children (gizmoChildren (config s)) (gizmoGroup s)) s).
Proof. apply wp_run, buildGizmo_children. Qed.

(** [attach] is the two assignments, the rebuilt children, then
    [update]. *)
Lemma attach_run o s :
  attach o s
  = update
      (set_gizmoGroup
         (Group.set_children (gizmoChildren (config s))
            (Group.set_visible (negb (isNull o)) (gizmoGroup s)))
         (set_attachedObject o s)).
Proof.
  unfold attach. unfold_monad. cbn beta iota.
  rewrite buildGizmo_run. reflexivity.
Qed.

Lemma attach_result (o : option Object3D.t) (s : State) :
  outcome (attach o) s = Returned tt
  /\ attachedObject (after (attach o) s) = o
  /\ Group.visible (gizmoGroup (after (attach o) s)) = negb (isNull o)
  /\ config (after (attach o) s) = config s
  /\ Group.children (gizmoGroup (after (attach o) s))
     = match o with
       | Some ob =>
           if isDragging s then gizmoChildren (config s)
           else
             map (flipHandle
                    (Vector3.applyQuaternion
                       (Vector3.sub (cameraPosition (camera s))
                          (Object3D.position ob))
                       (Quaternion.invert (Object3D.quaternion ob))))
               (gizmoChildren (config s))
       | None => gizmoChildren (config s)
       end.
Proof.
  unfold outcome, after. rewrite attach_run.
  destruct o as [ob|].
  - rewrite (update_spec _ ob) by reflexivity. state_simpl.
    destruct (isDragging s); repeat split; reflexivity.
  - unfold update. unfold_monad. repeat split; reflexivity.
Qed.

(** X1: [attach] always returns, records the object, shows the group
    exactly when the object is not [null], and leaves the group with the
    four children built from the configuration (the sphere and the
    handles of x, y and z), whatever children it had before; with an
    object attached and no drag active [update] then flips the handles
    for the camera, and otherwise leaves them as built. *)
Theorem X1_attach_rebuilds_the_handles (o : option Object3D.t) (s : State) :
  outcome (attach o) s = Returned tt
  /\ attachedObject (after (attach o) s) = o
  /\ Group.visible (gizmoGroup (after (attach o) s)) = negb (isNull o)
  /\ config (after (attach o) s) = config s
  /\ Group.children (gizmoGroup (after (attach o) s))
     = match o with
       | Some ob =>
           if isDragging s then gizmoChildren (config s)
           else
             map (flipHandle
                    (Vector3.applyQuaternion
                       (Vector3.sub (cameraPosition (camera s))
                          (Object3D.position ob))
                       (Quaternion.invert (Object3D.quaternion ob))))
               (gizmoChildren (config s))
       | None => gizmoChildren (config s)
       end.
Proof. apply attach_result. Qed.

(** After [attach] the children are the built ones, each as built or
    flipped. *)
Lemma attach_children_cases o s :
  exists f : Node -> Node,
    (f = id \/ exists cam, f = flipHandle cam)
    /\ Group.children (gizmoGroup (after (attach o) s))
       = map f (gizmoChildren (config s)).
Proof.
  destruct (attach_result o s) as (_ & _ & _ & _ & H).
  rewrite H. destruct o as [ob|]; [destruct (isDragging s)|].
  - exists id. split; [by left|]. by rewrite map_id.
  - eexists. split; [right; by eexists|]. reflexivity.
  - exists id. split; [by left|]. by rewrite map_id.
Qed.

(** X2: on the group [attach] leaves, every mesh of a handle (stick, head
    and hit cylinder, children 0, 1 and 2 of the handle) leads the search
    of [_handleDown] to the axis of that handle, and the central sphere
    (child 0 of the group) leads it to no axis. *)
Theorem X2_every_mesh_of_a_handle_selects_its_axis
    (o : option Object3D.t) (s : State) :
  let nodes := Group.children (gizmoGroup (after (attach o) s)) in
  ancestorAxis nodes (rev [0%nat]) = None
  /\ forall a part,
       part ∈ [0%nat; 1%nat; 2%nat] ->
       ancestorAxis nodes (rev [handleIndex a; part]) = Some a.
Proof.
  intros nodes. subst nodes.
  destruct (attach_children_cases o s) as (f & Hf & ->).
  split.
  - destruct Hf as [->|[cam ->]]; vm_compute; reflexivity.
  - intros a part Hpart.
    repeat (apply elem_of_cons in Hpart as [->|Hpart]);
      [ | | |by apply elem_of_nil in Hpart];
      destruct Hf as [->|[cam ->]]; destruct a; vm_compute; reflexivity.
Qed.

End Build.

(** ** Press and release: [_handleDown], [_startDrag], [_handleUp] *)

Section PressRelease.
Context {three : Three}.

Lemma startDrag_run a x y s o :
  hasCallbacks s ->
  attachedObject s = Some o ->
  let plane :=
    Plane.setFromNormalAndCoplanarPoint (getWorldDirection (camera s))
      (Object3D.position o) in
  _startDrag a x y s
  = (Returned tt,
     set__startIntersection
       (default Vector3.new (Ray.intersectPlane (ray s) plane))
       (set__startPosition (Object3D.position o)
          (set__dragPlane plane
             (set_effects (effects s ++ triggered "onDragStart" s)
                (set_gizmoGroup
                   (Group.set_children
                      (map (highlight a
                              (Colors.active (Config.colors (config s))))
                         (Group.children (gizmoGroup s)))
                      (gizmoGroup s))
                   (set_activeAxis (Some a) (set_isDragging true s))))))).
Proof.
  intros Hs Ho plane. apply wp_run.
  destruct (hasCallbacks_lookup s "onDragStart" Hs) as [cbs Hcbs].
  { unfold callbackKeys. set_solver. }
  unfold triggered. rewrite Hcbs.
  unfold _startDrag. do 4 wp_step. unfold _highlightAxis. do 2 wp_step.
  unfold _trigger. do 5 wp_step. do 8 wp_step.
  split; reflexivity.
Qed.

(** What a press on a handle does, in full. *)
Lemma press_run s e o hit rest a :
  hasCallbacks s ->
  attachedObject s = Some o ->
  Group.visible (gizmoGroup s) = true ->
  intersectObjects (pointerRay e s) (gizmoGroup s) = hit :: rest ->
  ancestorAxis (Group.children (gizmoGroup s)) (rev hit) = Some a ->
  outcome (_handleDown e) s = Returned tt
  /\ effects (after (_handleDown e) s)
     = (effects s
        ++ (if bool_decide (Event.type e = touchstart)
            then [PreventDefault] else [])
        ++ triggered "onDragStart" s)%list
  /\ Group.children (gizmoGroup (after (_handleDown e) s))
     = map (highlight a (Colors.active (Config.colors (config s))))
         (Group.children (gizmoGroup s))
  /\ isDragging (after (_handleDown e) s) = true
  /\ activeAxis (after (_handleDown e) s) = Some a
  /\ _startPosition (after (_handleDown e) s) = Object3D.position o
  /\ attachedObject (after (_handleDown e) s) = Some o
  /\ callbacks (after (_handleDown e) s) = callbacks s.
Proof.
  intros Hs Ho Hv Hi Ha. unfold outcome, after.
  rewrite handleDown_spec, Ho, Hv, Hi, Ha. cbn [isNull negb orb].
  unfold when, preventDefault, mbind, M_bind, mret, M_ret, modify.
  rewrite aimed_spec.
  case_bool_decide.
  - rewrite (startDrag_run a _ _ _ o); [|exact Hs|exact Ho].
    cbn [fst snd]. unfold triggered. state_simpl.
    repeat split; try reflexivity; try exact Ho.
    by rewrite <- (assoc_L (++)).
  - rewrite (startDrag_run a _ _ _ o); [|exact Hs|exact Ho].
    cbn [fst snd]. unfold triggered. state_simpl.
    repeat split; try reflexivity; exact Ho.
Qed.

(** X3: [_handleDown] looks at the nearest hit only.  When the search
    from the nearest hit finds no axis, the press returns without
    starting a drag, whatever lies behind it: no drag state, attached
    object, handle, callback list or effect changes. *)
Theorem X3_only_the_nearest_hit_counts
    (s : State) (e : Event.t) (hit : Path) (rest : list Path) :
  intersectObjects (pointerRay e s) (gizmoGroup s) = hit :: rest ->
  ancestorAxis (Group.children (gizmoGroup s)) (rev hit) = None ->
  outcome (_handleDown e) s = Returned tt
  /\ dragState (after (_handleDown e) s) = dragState s
  /\ attachedObject (after (_handleDown e) s) = attachedObject s
  /\ gizmoGroup (after (_handleDown e) s) = gizmoGroup s
  /\ callbacks (after (_handleDown e) s) = callbacks s
  /\ effects (after (_handleDown e) s) = effects s.
Proof.
  intros Hi Ha. unfold outcome, after.
  rewrite handleDown_spec, Hi, Ha.
  destruct (isNull (attachedObject s) || negb (Group.visible (gizmoGroup s)));
    [done|].
  by rewrite aimed_spec.
Qed.

(** X4: on a widget in a reachable state with an object attached and the
    group visible, a press whose nearest hit leads to axis [a] returns
    and starts a drag on [a], whether or not a drag was already active:
    it calls [preventDefault] for a touch, then every [onDragStart]
    callback once, in order (and no [onDragEnd]); it paints the children
    tagged [a] in the active colour and leaves the others; it records the
    object's current position as the start position and leaves the
    object as it was. *)
Theorem X4_press_on_a_handle_starts_a_drag
    (s : State) (e : Event.t) (o : Object3D.t)
    (hit : Path) (rest : list Path) (a : Axis) :
  reachable s ->
  attachedObject s = Some o ->
  Group.visible (gizmoGroup s) = true ->
  intersectObjects (pointerRay e s) (gizmoGroup s) = hit :: rest ->
  ancestorAxis (Group.children (gizmoGroup s)) (rev hit) = Some a ->
  outcome (_handleDown e) s = Returned tt
  /\ effects (after (_handleDown e) s)
     = (effects s
        ++ (if bool_decide (Event.type e = touchstart)
            then [PreventDefault] else [])
        ++ triggered "onDragStart" s)%list
  /\ Group.children (gizmoGroup (after (_handleDown e) s))
     = map (highlight a (Colors.active (Config.colors (config s))))
         (Group.children (gizmoGroup s))
  /\ isDragging (after (_handleDown e) s) = true
  /\ activeAxis (after (_handleDown e) s) = Some a
  /\ _startPosition (after (_handleDown e) s) = Object3D.position o
  /\ attachedObject (after (_handleDown e) s) = Some o.
Proof.
  intros Hs Ho Hv Hi Ha. apply reachable_hasCallbacks in Hs.
  destruct (press_run s e o hit rest a Hs Ho Hv Hi Ha)
    as (H1 & H2 & H3 & H4 & H5 & H6 & H7 & _).
  repeat split; assumption.
Qed.

Lemma handleUp_run s :
  _handleUp s
  = if isDragging s then
      _trigger "onDragEnd"
        (set_gizmoGroup
           (Group.set_children (map reset (Group.children (gizmoGroup s)))
              (gizmoGroup s))
           (set_activeAxis None (set_isDragging false s)))
    else (Returned tt, s).
Proof.
  unfold _handleUp, _resetColors. unfold_monad.
  destruct (isDragging s); [|done]. cbn beta iota.
  by destruct (_trigger _ _) as [[]].
Qed.

Lemma release_run s :
  hasCallbacks s ->
  isDragging s = true ->
  _handleUp s
  = (Returned tt,
     set_effects (effects s ++ triggered "onDragEnd" s)
       (set_gizmoGroup
          (Group.set_children (map reset (Group.children (gizmoGroup s)))
             (gizmoGroup s))
          (set_activeAxis None (set_isDragging false s)))).
Proof.
  intros Hs Hd. rewrite handleUp_run, Hd.
  rewrite trigger_reachable; [reflexivity|exact Hs|].
  unfold callbackKeys. set_solver.
Qed.

(** X5: on a widget in a reachable state, a release during a drag
    returns, ends the drag ([isDragging] false, [activeAxis] null), calls
    every [onDragEnd] callback once, in order, and repaints every child
    that has a non-zero base colour in it; the attached object, the drag
    plane and the start vectors stay as they were. *)
Theorem X5_release_ends_the_drag (s : State) :
  reachable s ->
  isDragging s = true ->
  outcome _handleUp s = Returned tt
  /\ isDragging (after _handleUp s) = false
  /\ activeAxis (after _handleUp s) = None
  /\ effects (after _handleUp s)
     = (effects s ++ triggered "onDragEnd" s)%list
  /\ Group.children (gizmoGroup (after _handleUp s))
     = map reset (Group.children (gizmoGroup s))
  /\ attachedObject (after _handleUp s) = attachedObject s
  /\ _dragPlane (after _handleUp s) = _dragPlane s
  /\ _startPosition (after _handleUp s) = _startPosition s
  /\ _startIntersection (after _handleUp s) = _startIntersection s.
Proof.
  intros Hs Hd. apply reachable_hasCallbacks in Hs.
  unfold outcome, after. rewrite (release_run s Hs Hd).
  repeat split; reflexivity.
Qed.

(** X6: outside a drag, a pointer move and a release return at once and
    leave the whole state as it was: no callback is called, no
    [preventDefault], and the ray caster is not even aimed. *)
Theorem X6_moves_and_releases_outside_a_drag_do_nothing
    (s : State) (e : Event.t) :
  isDragging s = false ->
  _handleMove e s = (Returned tt, s) /\ _handleUp s = (Returned tt, s).
Proof.
  intros Hd. split.
  - unfold _handleMove. unfold_monad. by rewrite Hd.
  - by rewrite handleUp_run, Hd.
Qed.

End PressRelease.

(** X3 at work: in the middle of the window the sphere is hit before the
    y handle, and the press starts no drag. *)
Lemma X3_witness :
  dragState (after (three := Scene2.centre)
               (_handleDown Scene2.pressCentre) Scene2.attached)
  = dragState Scene2.attached
  /\ effects (after (three := Scene2.centre)
                (_handleDown Scene2.pressCentre) Scene2.attached)
     = effects Scene2.attached.
Proof.
  destruct (X3_only_the_nearest_hit_counts (three := Scene2.centre)
              Scene2.attached Scene2.pressCentre [0%nat] [[2%nat; 2%nat]])
    as (_ & Hd & _ & _ & _ & He).
  - vm_compute. reflexivity.
  - vm_compute. reflexivity.
  - by split.
Defined.

(** X4 at work: a second finger on the x handle while the drag of
    [Scene.dragging] goes on restarts the drag. *)
Lemma X4_witness :
  isDragging Scene.dragging = true
  /\ effects (after (three := Scene.ortho) (_handleDown Scene.touch)
                Scene.dragging)
     = (effects Scene.dragging ++ [PreventDefault]
        ++ triggered "onDragStart" Scene.dragging)%list
  /\ activeAxis (after (three := Scene.ortho) (_handleDown Scene.touch)
                   Scene.dragging)
     = Some axis_x.
Proof.
  assert (reachable Scene.dragging) as Hr.
  { exists Scene.cam, 800, 800, Options.empty,
      [call_on "change" 7%nat; call_attach (Some Scene.turned);
       pointer Scene.press].
    reflexivity. }
  destruct (X4_press_on_a_handle_starts_a_drag (three := Scene.ortho)
              Scene.dragging Scene.touch Scene.turned [1%nat; 2%nat] []
              axis_x Hr)
    as (_ & He & _ & _ & Ha & _).
  - vm_compute. reflexivity.
  - vm_compute. reflexivity.
  - vm_compute. reflexivity.
  - vm_compute. reflexivity.
  - split; [vm_compute; reflexivity|]. split; [exact He|exact Ha].
Defined.

(** X5 at work: the release of the drag of [Scene.dragging]. *)
Lemma X5_witness :
  isDragging (after (three := Scene.ortho) _handleUp Scene.dragging) = false
  /\ activeAxis (after (three := Scene.ortho) _handleUp Scene.dragging)
     = None.
Proof.
  assert (reachable Scene.dragging) as Hr.
  { exists Scene.cam, 800, 800, Options.empty,
      [call_on "change" 7%nat; call_attach (Some Scene.turned);
       pointer Scene.press].
    reflexivity. }
  destruct (X5_release_ends_the_drag (three := Scene.ortho)
              Scene.dragging Hr)
    as (_ & Hd & Ha & _).
  - vm_compute. reflexivity.
  - by split.
Defined.

(** X6 at work: a move over the attached widget before any press. *)
Lemma X6_witness :
  _handleMove (three := Scene.ortho) Scene.move Scene.ready
  = (Returned tt, Scene.ready)
  /\ _handleUp (three := Scene.ortho) Scene.ready = (Returned tt, Scene.ready).
Proof.
  apply (X6_moves_and_releases_outside_a_drag_do_nothing
           (three := Scene.ortho) Scene.ready Scene.move).
  vm_compute. reflexivity.
Defined.

(** ** Reachable states and single operations *)

Section Reachability.
Context {three : Three}.

Lemma run_snoc ops op s : run (ops ++ [op]) s = after (exec op) (run ops s).
Proof. unfold run. by rewrite fold_left_app. Qed.

Lemma reachable_step op s : reachable s -> reachable (after (exec op) s).
Proof.
  intros (cam & w & h & o & ops & ->).
  exists cam, w, h, o, (ops ++ [op]). by rewrite run_snoc.
Qed.

(** Induction over the operations that lead to a reachable state. *)
Lemma reachable_invariant (P : State -> Prop) :
  (forall cam w h options, P (constructor cam w h options)) ->
  (forall op s, reachable s -> P s -> P (after (exec op) s)) ->
  forall s, reachable s -> P s.
Proof.
  intros H0 Hstep s (cam & w & h & o & ops & ->).
  induction ops as [|op ops IH] using rev_ind; [apply H0|].
  rewrite run_snoc. apply Hstep; [|exact IH]. by exists cam, w, h, o, ops.
Qed.

(** The listener a pointer event reaches. *)
Lemma dispatch_run e s :
  dispatch e s
  = if listening s then
      match Event.type e with
      | mousedown | touchstart => _handleDown e s
      | mousemove | touchmove => _handleMove e s
      | mouseup | touchend => _handleUp s
      end
    else (Returned tt, s).
Proof.
  unfold dispatch, mbind, M_bind, get, mret, M_ret.
  destruct (listening s); [|reflexivity]. cbn [negb].
  by destruct (Event.type e).
Qed.

(** A press either leaves the state (but for the aimed ray) or starts a
    drag. *)
Lemma handleDown_cases e s :
  _handleDown e s = (Returned tt, s)
  \/ _handleDown e s = (Returned tt, aimed e s)
  \/ exists o hit rest a,
       attachedObject s = Some o
       /\ Group.visible (gizmoGroup s) = true
       /\ intersectObjects (pointerRay e s) (gizmoGroup s) = hit :: rest
       /\ ancestorAxis (Group.children (gizmoGroup s)) (rev hit) = Some a.
Proof.
  rewrite handleDown_spec.
  destruct (attachedObject s) as [o|]; [|by left].
  destruct (Group.visible (gizmoGroup s)); [|by left].
  cbn [isNull negb orb].
  destruct (intersectObjects _ _) as [|hit rest]; [by right; left|].
  destruct (ancestorAxis _ _) as [a|] eqn:Ha; [|by right; left].
  right; right. by exists o, hit, rest, a.
Qed.

Lemma update_run s :
  update s
  = (Returned tt,
     match attachedObject s with
     | Some o =>
         if Group.visible (gizmoGroup s) then
           let d :=
             Vector3.distanceTo (cameraPosition (camera s))
               (Object3D.position o) in
           let g :=
             Group.set_scale (Vector3.mk (d * 0.09) (d * 0.09) (d * 0.09))
               (Group.set_quaternion (Object3D.quaternion o)
                  (Group.set_position (Object3D.position o)
                     (gizmoGroup s))) in
           if isDragging s then set_gizmoGroup g s
           else
             set_gizmoGroup
               (Group.set_children
                  (map (flipHandle
                          (cameraInGizmoFrame (cameraPosition (camera s)) g))
                     (Group.children g)) g) s
         else s
     | None => s
     end).
Proof.
  destruct (attachedObject s) as [o|] eqn:Ho.
  - destruct (Group.visible (gizmoGroup s)) eqn:Hv.
    + by rewrite (update_spec s o Ho Hv).
    + unfold update. unfold_monad. by rewrite Ho, Hv.
  - unfold update. unfold_monad. by rewrite Ho.
Qed.

(** How one operation changes the children of the group. *)
Lemma exec_handlesStep op s :
  hasCallbacks s ->
  config (after (exec op) s) = config s
  /\ handlesStep s (after (exec op) s).
Proof.
  intros Hs.
  assert (forall m : M unit,
            preserves config m -> preserves isDragging m ->
            preserves (fun s => Group.children (gizmoGroup s)) m ->
            config (after m s) = config s /\ handlesStep s (after m s))
    as Hkept.
  { intros m Hc Hd Hg. split; [apply Hc|].
    apply handles_kept; [apply Hd|apply Hg]. }
  destruct op as [o| | | | |e| | |].
  - split; [by destruct (attach_result o s) as (_ & _ & _ & H & _)|].
    destruct (attach_children_cases o s) as (f & Hf & Hch).
    apply (handles_built _ _ f); [|exact Hf|exact Hch].
    assert (preserves isDragging (attach o)) as Hp by frame. apply Hp.
  - apply Hkept; frame.
  - apply Hkept; frame.
  - unfold exec, after. rewrite update_run. cbn [snd].
    destruct (attachedObject s) as [o|]; [|split; [done|by apply handles_kept]].
    destruct (Group.visible (gizmoGroup s));
      [|split; [done|by apply handles_kept]].
    cbn zeta. destruct (isDragging s) eqn:Hd.
    + split; [done|]. by apply handles_kept.
    + split; [done|]. by eapply handles_flipped.
  - apply Hkept; frame.
  - unfold exec, after. rewrite dispatch_run.
    destruct (listening s); [|split; [done|by apply handles_kept]].
    destruct (Event.type e) eqn:He.
    1, 2:
      destruct (handleDown_cases e s)
        as [H|[H|(o & hit & rest & a & Ho & Hv & Hi & Ha)]];
      [ rewrite H; split; [done|by apply handles_kept]
      | rewrite H, aimed_spec; split; [done|by apply handles_kept]
      | destruct (press_run s e o hit rest a Hs Ho Hv Hi Ha)
          as (_ & _ & Hch & Hd & _);
        split;
        [ assert (preserves config (_handleDown e)) as Hp by frame;
          apply Hp
        | by apply (handles_highlighted _ _ a) ] ].
    1, 2: apply (Hkept (_handleMove e)); frame.
    1, 2:
      destruct (isDragging s) eqn:Hd;
      [ rewrite (release_run s Hs Hd); split; [done|];
        by apply handles_reset
      | rewrite handleUp_run, Hd; split; [done|by apply handles_kept] ].
  - apply Hkept; frame.
  - apply Hkept; frame.
  - apply Hkept; frame.
Qed.

End Reachability.

(** ** Colours: [_highlightAxis], [_resetColors], [_colorRecursive] *)

Section Colours.
Context {three : Three}.

(** Induction on a node with the hypothesis for every child. *)
Lemma Node_forall_ind (P : Node -> Prop) :
  (forall u g m p r sc ro ch,
     Forall P ch -> P (mkNode u g m p r sc ro ch)) ->
  forall n, P n.
Proof.
  intros H. fix IH 1. intros [u g m p r sc ro ch]. apply H.
  induction ch as [|c ch IHch]; constructor; [apply IH|exact IHch].
Qed.

Lemma Forall_map_impl {A B} (P : A -> Prop) (Q : B -> Prop) (f : A -> B) l :
  (forall x, P x -> Q (f x)) -> Forall P l -> Forall Q (map f l).
Proof. intros H. induction 1; simpl; constructor; auto. Qed.

Lemma lookup_map {A B} (f : A -> B) (l : list A) (i : nat) :
  map f l !! i = f <$> l !! i.
Proof.
  revert i. induction l as [|x l IH]; intros [|i]; simpl; done.
Qed.

Lemma colorRecursive_userData g c :
  userData (_colorRecursive g c) = userData g.
Proof. by destruct g. Qed.

(** The last colour painted is the one that stays. *)
Lemma colorRecursive_twice g c1 c2 :
  _colorRecursive (_colorRecursive g c1) c2 = _colorRecursive g c2.
Proof.
  induction g as [u ge m p r sc ro ch IH] using Node_forall_ind.
  simpl. f_equal.
  - destruct m as [mat|]; [|done]. by destruct (UserData.axis u).
  - induction IH as [|c ch Hc _ IHch]; simpl; [done|]. by rewrite Hc, IHch.
Qed.

Lemma flipHandle_colorRecursive cam g c :
  _colorRecursive (flipHandle cam g) c = flipHandle cam (_colorRecursive g c).
Proof.
  unfold flipHandle. rewrite colorRecursive_userData.
  case_bool_decide; [|done]. by destruct g.
Qed.

Lemma highlight_userData a col g : userData (highlight a col g) = userData g.
Proof.
  unfold highlight. case_bool_decide; [|done]. apply colorRecursive_userData.
Qed.

Lemma reset_userData g : userData (reset g) = userData g.
Proof.
  unfold reset. destruct (UserData.baseColor (userData g)) as [c|]; [|done].
  destruct (c =? 0)%Z; [done|]. apply colorRecursive_userData.
Qed.

Lemma coloured_userData g g' :
  userData g' = userData g -> coloured g -> coloured g'.
Proof. unfold coloured. by intros ->. Qed.

Lemma atRest_flipHandle cam g : atRest g -> atRest (flipHandle cam g).
Proof.
  unfold atRest. rewrite flipHandle_userData.
  destruct (UserData.baseColor (userData g)) as [c|]; [|done].
  intros H. by rewrite flipHandle_colorRecursive, H.
Qed.

Lemma atRest_reset g : coloured g -> atRest (reset g).
Proof.
  unfold atRest, coloured. rewrite reset_userData. unfold reset.
  destruct (UserData.baseColor (userData g)) as [c|]; [|done].
  intros Hc. destruct (c =? 0)%Z eqn:E; [by apply Z.eqb_eq in E|].
  apply colorRecursive_twice.
Qed.

(** [_resetColors] undoes [_highlightAxis] on a child in its resting
    colours. *)
Lemma reset_highlight a col g :
  coloured g -> atRest g -> reset (highlight a col g) = g.
Proof.
  unfold highlight, coloured, atRest. case_bool_decide as Hax.
  - unfold reset. rewrite colorRecursive_userData.
    destruct (UserData.baseColor (userData g)) as [c|]; [|congruence].
    intros Hc Hr. destruct (c =? 0)%Z eqn:E; [by apply Z.eqb_eq in E|].
    by rewrite colorRecursive_twice.
  - unfold reset.
    destruct (UserData.baseColor (userData g)) as [c|]; [|done].
    intros _ Hr. by destruct (c =? 0)%Z.
Qed.

Lemma map_reset_highlight a col l :
  Forall coloured l -> Forall atRest l ->
  map reset (map (highlight a col) l) = l.
Proof.
  induction 1 as [|g l Hg _ IH]; [done|].
  intros Hr. apply Forall_cons_1 in Hr as [Hr1 Hr2].
  simpl. by rewrite reset_highlight, IH.
Qed.

Lemma gizmoChildren_coloured c :
  plainColours c -> Forall coloured (gizmoChildren c).
Proof.
  intros (Hx & Hy & Hz). unfold gizmoChildren.
  repeat constructor; assumption.
Qed.

Lemma gizmoChildren_atRest c : Forall atRest (gizmoChildren c).
Proof. unfold gizmoChildren. repeat constructor. Qed.

(** What every reachable state keeps about the colours. *)
Lemma reachable_colours s :
  reachable s ->
  plainColours (config s) ->
  Forall coloured (Group.children (gizmoGroup s))
  /\ (isDragging s = false -> Forall atRest (Group.children (gizmoGroup s))).
Proof.
  revert s.
  apply (reachable_invariant
           (fun s =>
              plainColours (config s) ->
              Forall coloured (Group.children (gizmoGroup s))
              /\ (isDragging s = false ->
                  Forall atRest (Group.children (gizmoGroup s))))).
  - intros cam w h o _. simpl. split; constructor.
  - intros op s Hr IH Hp.
    destruct (exec_handlesStep op s (reachable_hasCallbacks s Hr))
      as [Hc Hstep].
    rewrite Hc in Hp. destruct (IH Hp) as [Hcol Hrest].
    destruct Hstep as [Hd Hch|cam Hd Hd0 Hch|f Hd Hf Hch|a Hd Hch|Hd0 Hd Hch];
      rewrite Hch.
    + split; [done|]. by rewrite Hd.
    + split.
      * eapply Forall_map_impl; [|exact Hcol]. intros g.
        apply coloured_userData, flipHandle_userData.
      * intros _. eapply Forall_map_impl; [|exact (Hrest Hd0)].
        intros g. apply atRest_flipHandle.
    + split.
      * eapply Forall_map_impl; [|exact (gizmoChildren_coloured _ Hp)].
        intros g. destruct Hf as [->|[cam ->]]; [done|].
        apply coloured_userData, flipHandle_userData.
      * intros _. eapply Forall_map_impl; [|exact (gizmoChildren_atRest _)].
        intros g. destruct Hf as [->|[cam ->]]; [done|].
        apply atRest_flipHandle.
    + split; [|by rewrite Hd].
      eapply Forall_map_impl; [|exact Hcol]. intros g.
      apply coloured_userData, highlight_userData.
    + split.
      * eapply Forall_map_impl; [|exact Hcol]. intros g.
        apply coloured_userData, reset_userData.
      * intros _. eapply Forall_map_impl; [|exact Hcol]. intros g.
        apply atRest_reset.
Qed.

(** X7: with axis colours other than [0], in every reachable state
    outside a drag every child of the group shows its resting colours:
    repainting a handle in its base colour changes nothing, and the only
    child without base colour (the sphere) carries no axis. *)
Theorem X7_handles_rest_in_their_base_colours (s : State) :
  reachable s ->
  plainColours (config s) ->
  isDragging s = false ->
  Forall atRest (Group.children (gizmoGroup s)).
Proof. intros Hr Hp Hd. by apply reachable_colours. Qed.

(** What a press on a handle followed by a release leaves. *)
Lemma click_run s e o hit rest a :
  hasCallbacks s ->
  attachedObject s = Some o ->
  Group.visible (gizmoGroup s) = true ->
  intersectObjects (pointerRay e s) (gizmoGroup s) = hit :: rest ->
  ancestorAxis (Group.children (gizmoGroup s)) (rev hit) = Some a ->
  let s' := after _handleUp (after (_handleDown e) s) in
  Group.children (gizmoGroup s')
  = map reset
      (map (highlight a (Colors.active (Config.colors (config s))))
         (Group.children (gizmoGroup s)))
  /\ attachedObject s' = Some o
  /\ isDragging s' = false
  /\ activeAxis s' = None
  /\ effects s'
     = (effects s
        ++ (if bool_decide (Event.type e = touchstart)
            then [PreventDefault] else [])
        ++ triggered "onDragStart" s ++ triggered "onDragEnd" s)%list.
Proof.
  intros Hs Ho Hv Hi Ha s'. subst s'.
  destruct (press_run s e o hit rest a Hs Ho Hv Hi Ha)
    as (_ & He & Hch & Hd & _ & _ & Hob & Hcb).
  pose proof (handleDown_hasCallbacks e s Hs) as Hs1.
  set (s1 := after (_handleDown e) s) in *. clearbody s1.
  unfold after at 1 2 3 4 5. rewrite (release_run s1 Hs1 Hd). state_simpl.
  rewrite Hch, He, Hob. unfold triggered. rewrite Hcb.
  repeat split; try reflexivity.
  by rewrite <- !(assoc_L (++)).
Qed.

(** X8: with axis colours other than [0], on a widget in a reachable
    state outside a drag, a press on a handle followed by a release
    leaves the children of the group, colours included, exactly as they
    were before the press, and the attached object too; in between it
    called [preventDefault] for a touch, then the [onDragStart]
    callbacks, then the [onDragEnd] callbacks. *)
Theorem X8_press_and_release_restore_the_colours
    (s : State) (e : Event.t) (o : Object3D.t)
    (hit : Path) (rest : list Path) (a : Axis) :
  reachable s ->
  plainColours (config s) ->
  isDragging s = false ->
  attachedObject s = Some o ->
  Group.visible (gizmoGroup s) = true ->
  intersectObjects (pointerRay e s) (gizmoGroup s) = hit :: rest ->
  ancestorAxis (Group.children (gizmoGroup s)) (rev hit) = Some a ->
  let s' := after _handleUp (after (_handleDown e) s) in
  Group.children (gizmoGroup s') = Group.children (gizmoGroup s)
  /\ attachedObject s' = Some o
  /\ isDragging s' = false
  /\ activeAxis s' = None
  /\ effects s'
     = (effects s
        ++ (if bool_decide (Event.type e = touchstart)
            then [PreventDefault] else [])
        ++ triggered "onDragStart" s ++ triggered "onDragEnd" s)%list.
Proof.
  intros Hr Hp Hd Ho Hv Hi Ha s'.
  destruct (click_run s e o hit rest a (reachable_hasCallbacks s Hr)
              Ho Hv Hi Ha) as (Hch & H).
  split; [|exact H]. subst s'. rewrite Hch.
  destruct (reachable_colours s Hr Hp) as [Hcol Hrest].
  apply map_reset_highlight; [exact Hcol|exact (Hrest Hd)].
Qed.

(** X9: a handle whose base colour is [0] (black) is skipped by
    [_resetColors], for which [0] is no colour: after a press on it and
    the release it is still painted in the active colour. *)
Theorem X9_a_black_handle_stays_highlighted
    (s : State) (e : Event.t) (o : Object3D.t)
    (hit : Path) (rest : list Path) (a : Axis) (i : nat) (g : Node) :
  reachable s ->
  attachedObject s = Some o ->
  Group.visible (gizmoGroup s) = true ->
  intersectObjects (pointerRay e s) (gizmoGroup s) = hit :: rest ->
  ancestorAxis (Group.children (gizmoGroup s)) (rev hit) = Some a ->
  Group.children (gizmoGroup s) !! i = Some g ->
  UserData.axis (userData g) = Some a ->
  UserData.baseColor (userData g) = Some 0%Z ->
  Group.children (gizmoGroup (after _handleUp (after (_handleDown e) s))) !! i
  = Some (_colorRecursive g (Colors.active (Config.colors (config s)))).
Proof.
  intros Hr Ho Hv Hi Ha Hg Hax Hb.
  destruct (click_run s e o hit rest a (reachable_hasCallbacks s Hr)
              Ho Hv Hi Ha) as (Hch & _).
  rewrite Hch, !lookup_map, Hg. simpl. f_equal.
  unfold highlight. rewrite bool_decide_eq_true_2 by exact Hax.
  unfold reset. by rewrite colorRecursive_userData, Hb.
Qed.

End Colours.

(** X7 at work: the widget of [Scene.ready], attached and not dragged. *)
Lemma X7_witness :
  Forall atRest (Group.children (gizmoGroup Scene.ready)).
Proof.
  apply (X7_handles_rest_in_their_base_colours (three := Scene.ortho)).
  - exists Scene.cam, 800, 800, Options.empty,
      [call_on "change" 7%nat; call_attach (Some Scene.turned)].
    reflexivity.
  - unfold plainColours. vm_compute. repeat split; discriminate.
  - vm_compute. reflexivity.
Defined.

(** X8 at work: a click on the x handle of [Scene.ready]. *)
Lemma X8_witness :
  Group.children
    (gizmoGroup
       (after (three := Scene.ortho) _handleUp
          (after (three := Scene.ortho) (_handleDown Scene.press)
             Scene.ready)))
  = Group.children (gizmoGroup Scene.ready).
Proof.
  assert (reachable Scene.ready) as Hr.
  { exists Scene.cam, 800, 800, Options.empty,
      [call_on "change" 7%nat; call_attach (Some Scene.turned)].
    reflexivity. }
  destruct (X8_press_and_release_restore_the_colours (three := Scene.ortho)
              Scene.ready Scene.press Scene.turned [1%nat; 2%nat] []
              axis_x Hr)
    as (H & _).
  - unfold plainColours. vm_compute. repeat split; discriminate.
  - vm_compute. reflexivity.
  - vm_compute. reflexivity.
  - vm_compute. reflexivity.
  - vm_compute. reflexivity.
  - vm_compute. reflexivity.
  - exact H.
Defined.

(** X9 at work: the black x handle of [Scene2.black] after a click on
    it. *)
Lemma X9_witness :
  exists g,
    Group.children (gizmoGroup Scene2.black) !! 1%nat = Some g
    /\ UserData.baseColor (userData g) = Some 0%Z
    /\ Group.children
         (gizmoGroup
            (after (three := Scene.ortho) _handleUp
               (after (three := Scene.ortho) (_handleDown Scene.press)
                  Scene2.black))) !! 1%nat
       = Some (_colorRecursive g 0xFFFFFF).
Proof.
  assert (reachable Scene2.black) as Hr.
  { exists Scene.cam, 800, 800,
      (Options.mk (Some (Colors.mk 0 0x00E676 0x2979FF 0xFFFFFF))
         None None None None None),
      [call_attach (Some Scene.turned)].
    reflexivity. }
  eexists. split; [vm_compute; reflexivity|]. split; [reflexivity|].
  apply (X9_a_black_handle_stays_highlighted (three := Scene.ortho)
           Scene2.black Scene.press Scene.turned [1%nat; 2%nat] [] axis_x
           1%nat _ Hr).
  - vm_compute. reflexivity.
  - vm_compute. reflexivity.
  - vm_compute. reflexivity.
  - vm_compute. reflexivity.
  - vm_compute. reflexivity.
  - reflexivity.
  - reflexivity.
Defined.

(** ** The drag flags *)

Section DragFlags.
Context {three : Three}.

Lemma exec_dragConsistent op s :
  hasCallbacks s -> dragConsistent s -> dragConsistent (after (exec op) s).
Proof.
  unfold dragConsistent. intros Hs Hc.
  assert (forall m : M unit,
            preserves isDragging m -> preserves activeAxis m ->
            isDragging (after m s) = negb (isNull (activeAxis (after m s))))
    as Hkept.
  { intros m Hd Ha. by rewrite Hd, Ha. }
  destruct op as [o| | | | |e| | |]; try (apply Hkept; frame; fail).
  unfold exec, after. rewrite dispatch_run.
  destruct (listening s); [|done].
  destruct (Event.type e) eqn:He.
  1, 2:
    destruct (handleDown_cases e s)
      as [H|[H|(o & hit & rest & a & Ho & Hv & Hi & Ha)]];
    [ by rewrite H
    | by rewrite H, aimed_spec
    | destruct (press_run s e o hit rest a Hs Ho Hv Hi Ha)
        as (_ & _ & _ & Hd & Hax & _);
      unfold after in Hd, Hax; by rewrite Hd, Hax ].
  1, 2: apply (Hkept (_handleMove e)); frame.
  1, 2:
    destruct (isDragging s) eqn:Hd;
    [ rewrite (release_run s Hs Hd); reflexivity
    | rewrite handleUp_run, Hd; cbn [snd]; by rewrite Hd ].
Qed.

(** X10: in every reachable state [activeAxis] is set exactly while
    [isDragging] is true: the two are written together by [_startDrag]
    and [_handleUp] and by nothing else. *)
Theorem X10_active_axis_is_set_exactly_during_a_drag (s : State) :
  reachable s -> dragConsistent s.
Proof.
  revert s. apply (reachable_invariant dragConsistent).
  - intros cam w h o. reflexivity.
  - intros op s Hr. apply exec_dragConsistent.
    by apply reachable_hasCallbacks.
Qed.

End DragFlags.

(** X10 at work: the drag of [Scene.dragging]. *)
Lemma X10_witness : dragConsistent Scene.dragging.
Proof.
  apply (X10_active_axis_is_set_exactly_during_a_drag (three := Scene.ortho)).
  exists Scene.cam, 800, 800, Options.empty,
    [call_on "change" 7%nat; call_attach (Some Scene.turned);
     pointer Scene.press].
  reflexivity.
Defined.

(** ** [update] and the handles during a drag *)

Section UpdateAgain.
Context {three : Three}.

Lemma flipHandle_twice cam g :
  flipHandle cam (flipHandle cam g) = flipHandle cam g.
Proof.
  unfold flipHandle at 2. case_bool_decide as Ht; [|done].
  destruct g as [u ge m p r sc ro ch]. unfold flipHandle.
  cbn [userData] in *. by rewrite bool_decide_eq_true_2.
Qed.

Lemma map_flipHandle_twice cam l :
  map (flipHandle cam) (map (flipHandle cam) l) = map (flipHandle cam) l.
Proof.
  induction l as [|g l IH]; [done|]. simpl.
  by rewrite flipHandle_twice, IH.
Qed.

(** X11: [update] is idempotent: a second call right after the first
    returns and changes nothing, the flips of the handles included. *)
Theorem X11_update_twice_is_update_once (s : State) :
  update (after update s) = (Returned tt, after update s).
Proof.
  unfold after at 1. rewrite update_run at 1. f_equal.
  unfold after. rewrite update_run. cbn [snd].
  destruct (attachedObject s) as [o|] eqn:Ho; [|by rewrite Ho].
  destruct (Group.visible (gizmoGroup s)) eqn:Hv; [|by rewrite Ho, Hv].
  cbv zeta. destruct (isDragging s) eqn:Hd; state_simpl.
  - rewrite Ho, Hv, Hd. reflexivity.
  - rewrite Ho, Hv, Hd. unfold cameraInGizmoFrame. state_simpl.
    by rewrite map_flipHandle_twice.
Qed.

Lemma exec_children_dragging op s :
  isDragging s = true ->
  duringDrag op = true ->
  Group.children (gizmoGroup (after (exec op) s))
  = Group.children (gizmoGroup s).
Proof.
  intros Hd Hop.
  assert (forall m : M unit,
            preserves (fun s => Group.children (gizmoGroup s)) m ->
            Group.children (gizmoGroup (after m s))
            = Group.children (gizmoGroup s)) as Hkept.
  { intros m H. apply H. }
  destruct op as [o| | | | |e| | |]; try discriminate Hop;
    try (apply Hkept; frame; fail).
  - unfold exec, after. rewrite update_run, Hd. cbn [snd].
    destruct (attachedObject s); [|done].
    by destruct (Group.visible (gizmoGroup s)).
  - unfold exec, after. rewrite dispatch_run.
    destruct (listening s); [|done]. simpl in Hop.
    destruct (Event.type e); try discriminate Hop;
      apply (Hkept (_handleMove e)); frame.
Qed.

Lemma run_children_dragging ops s :
  isDragging s = true ->
  Forall (fun op => duringDrag op = true) ops ->
  isDragging (run ops s) = true
  /\ Group.children (gizmoGroup (run ops s)) = Group.children (gizmoGroup s).
Proof.
  intros Hd Hops. revert s Hd.
  induction Hops as [|op ops Hop _ IH]; intros s Hd; [done|].
  change (run (op :: ops) s) with (run ops (after (exec op) s)).
  assert (isDragging (after (exec op) s) = true) as Hd'.
  { pose proof (exec_dragState op Hop s) as H. unfold dragState in H.
    apply (f_equal (fun t => t.1.1.1.1)) in H. simpl in H. congruence. }
  destruct (IH _ Hd') as [H1 H2]. split; [exact H1|].
  by rewrite H2, exec_children_dragging.
Qed.

(** X12: from a press to the release, nothing changes the children of the
    group: over any run of pointer moves, calls of [update], [on] and
    [dispose] and changes of the camera, the window and the object, the
    handles keep their colours (the active handle stays highlighted) and
    their flips, wherever the camera goes. *)
Theorem X12_handles_are_frozen_during_a_drag (s : State) (ops : list Op) :
  isDragging s = true ->
  Forall (fun op => duringDrag op = true) ops ->
  Group.children (gizmoGroup (run ops s)) = Group.children (gizmoGroup s).
Proof. intros Hd Hops. by apply run_children_dragging. Qed.

(** X13: a pointer move that hits the drag plane writes the position of
    the attached object and leaves the whole group where it was; the
    group follows at the next [update], which copies the new position
    into it and, the drag being active, leaves the children alone. *)
Theorem X13_the_group_follows_at_the_next_update
    (s : State) (e : Event.t) (o : Object3D.t) (current : Vector3.t) :
  reachable s ->
  isDragging s = true ->
  attachedObject s = Some o ->
  Group.visible (gizmoGroup s) = true ->
  Ray.intersectPlane (pointerRay e s) (_dragPlane s) = Some current ->
  let s1 := after (_handleMove e) s in
  gizmoGroup s1 = gizmoGroup s
  /\ exists o',
       attachedObject s1 = Some o'
       /\ outcome update s1 = Returned tt
       /\ Group.position (gizmoGroup (after update s1)) = Object3D.position o'
       /\ Group.children (gizmoGroup (after update s1))
          = Group.children (gizmoGroup s).
Proof.
  intros Hr Hd Ho Hv Hi s1.
  assert (preserves gizmoGroup (_handleMove e)) as Hg by frame.
  assert (preserves isDragging (_handleMove e)) as Hdp by frame.
  assert (exists o', attachedObject s1 = Some o') as [o' Ho'].
  { subst s1. unfold after.
    rewrite (handleMove_spec e s Hd), Hi, Ho. cbv zeta.
    rewrite trigger_spec. state_simpl.
    destruct (callbacks _ !! _); cbn [snd]; state_simpl; eauto. }
  pose proof (Hg s) as Hg1. pose proof (Hdp s) as Hd1.
  fold s1 in Hg1, Hd1. clearbody s1.
  split; [exact Hg1|]. exists o'. split; [exact Ho'|].
  rewrite Hd in Hd1. rewrite <- Hg1 in Hv.
  unfold outcome, after. rewrite (update_spec s1 o' Ho' Hv), Hd1.
  state_simpl. by rewrite Hg1.
Qed.

End UpdateAgain.

(** X12 at work: a move, an [update] and a camera change during the drag
    of [Scene.dragging]. *)
Lemma X12_witness :
  Group.children
    (gizmoGroup
       (run (three := Scene.ortho)
          [pointer Scene.move; call_update;
           env_camera (three := Scene.ortho) (Vector3.mk 0 0 (-10))]
          Scene.dragging))
  = Group.children (gizmoGroup Scene.dragging).
Proof.
  apply (X12_handles_are_frozen_during_a_drag (three := Scene.ortho)).
  - vm_compute. reflexivity.
  - repeat constructor.
Defined.

(** X13 at work: the move of [Scene.move] during the drag of
    [Scene.dragging]. *)
Lemma X13_witness :
  gizmoGroup (after (three := Scene.ortho) (_handleMove Scene.move)
                Scene.dragging)
  = gizmoGroup Scene.dragging.
Proof.
  assert (reachable Scene.dragging) as Hr.
  { exists Scene.cam, 800, 800, Options.empty,
      [call_on "change" 7%nat; call_attach (Some Scene.turned);
       pointer Scene.press].
    reflexivity. }
  eapply (X13_the_group_follows_at_the_next_update (three := Scene.ortho)
            Scene.dragging Scene.move Scene.turned _ Hr).
  - vm_compute. reflexivity.
  - vm_compute. reflexivity.
  - vm_compute. reflexivity.
  - vm_compute. reflexivity.
Defined.

(** ** The callback table, [dispose], [detach] *)

Section Lifecycle.
Context {three : Three}.

Lemma exec_callbacks_grow op s name :
  match callbacks s !! name with
  | Some l =>
      exists more,
        callbacks (after (exec op) s) !! name = Some (l ++ more)%list
  | None => callbacks (after (exec op) s) !! name = None
  end.
Proof.
  assert (callbacks (after (exec op) s) = callbacks s
          \/ exists key l cb,
               callbacks s !! key = Some l
               /\ callbacks (after (exec op) s)
                  = <[key := (l ++ [cb])%list]> (callbacks s)) as [->|H].
  { destruct op as [| |ev cb| | | | | |];
      try (left; apply exec_callbacks; congruence).
    unfold exec, on. unfold_monad.
    destruct (callbacks s !! callbackName ev) as [l|] eqn:E; [|by left].
    right. by exists (callbackName ev), l, cb. }
  - destruct (callbacks s !! name) as [l|]; [|done].
    exists []. by rewrite app_nil_r.
  - destruct H as (key & l & cb & Hl & ->).
    destruct (decide (key = name)) as [->|Hne].
    + rewrite Hl, lookup_insert_eq. by exists [cb].
    + rewrite lookup_insert_ne by done.
      destruct (callbacks s !! name) as [l0|]; [|done].
      exists []. by rewrite app_nil_r.
Qed.

(** X14: no operation removes a callback, reorders a list or adds a list
    under a new name: over any run of operations each callback list keeps
    what it held as a prefix, and a name without list stays without. *)
Theorem X14_callbacks_are_never_removed
    (s : State) (ops : list Op) (name : string) :
  match callbacks s !! name with
  | Some l =>
      exists more, callbacks (run ops s) !! name = Some (l ++ more)%list
  | None => callbacks (run ops s) !! name = None
  end.
Proof.
  revert s. induction ops as [|op ops IH]; intros s.
  - simpl. destruct (callbacks s !! name) as [l|]; [|done].
    exists []. by rewrite app_nil_r.
  - change (run (op :: ops) s) with (run ops (after (exec op) s)).
    pose proof (exec_callbacks_grow op s name) as H1.
    pose proof (IH (after (exec op) s)) as H2.
    destruct (callbacks s !! name) as [l|].
    + destruct H1 as [m1 H1]. rewrite H1 in H2. destruct H2 as [m2 H2].
      exists (m1 ++ m2)%list. by rewrite (assoc_L (++)).
    + by rewrite H1 in H2.
Qed.

Lemma exec_disposed op s :
  listening s = false -> inScene s = false ->
  listening (after (exec op) s) = false
  /\ inScene (after (exec op) s) = false.
Proof.
  intros Hl Hi.
  assert (forall m : M unit,
            preserves listening m -> preserves inScene m ->
            listening (after m s) = false /\ inScene (after m s) = false)
    as Hkept.
  { intros m H1 H2. by rewrite H1, H2. }
  destruct op as [o| | | | |e| | |]; try (apply Hkept; frame; fail).
  done.
Qed.

Lemma run_disposed ops s :
  listening s = false -> inScene s = false ->
  listening (run ops s) = false /\ inScene (run ops s) = false.
Proof.
  revert s. induction ops as [|op ops IH]; intros s Hl Hi; [done|].
  change (run (op :: ops) s) with (run ops (after (exec op) s)).
  destruct (exec_disposed op s Hl Hi) as [Hl' Hi']. by apply IH.
Qed.

(** X15: [dispose] is final.  After it, whatever is called, the listeners
    stay removed and the group stays out of the scene ([attach] does not
    bring them back), and every pointer event leaves the whole state as
    it is. *)
Theorem X15_dispose_is_final (s : State) (ops : list Op) :
  let s' := run ops (after dispose s) in
  listening s' = false
  /\ inScene s' = false
  /\ forall e, dispatch e s' = (Returned tt, s').
Proof.
  intros s'.
  destruct (run_disposed ops (after dispose s)) as [Hl Hi]; [done..|].
  fold s' in Hl, Hi. repeat split; [exact Hl|exact Hi|].
  intros e. by rewrite dispatch_run, Hl.
Qed.

(** X16: [attach] and [detach] never end a drag: [isDragging], the active
    axis, the drag plane and the start vectors are the same after the
    call as before it. *)
Theorem X16_attach_and_detach_keep_the_drag
    (s : State) (o : option Object3D.t) :
  dragState (after (attach o) s) = dragState s
  /\ dragState (after detach s) = dragState s.
Proof.
  split.
  - assert (preserves dragState (attach o)) as H by (unfold dragState; frame).
    apply H.
  - reflexivity.
Qed.

(** X17: with nothing attached, after [detach] or [attach(null)],
    [update] and a press return at once and leave the whole state as it
    is: the ray caster is not aimed and no handle is looked for. *)
Theorem X17_nothing_attached_nothing_to_press
    (s : State) (e : Event.t) :
  let d := after detach s in
  let n := after (attach None) s in
  update d = (Returned tt, d)
  /\ _handleDown e d = (Returned tt, d)
  /\ update n = (Returned tt, n)
  /\ _handleDown e n = (Returned tt, n).
Proof.
  intros d n.
  assert (attachedObject d = None) as Hd by reflexivity.
  assert (attachedObject n = None) as Hn
    by (by destruct (attach_result None s) as (_ & H & _)).
  clearbody d n.
  rewrite !update_run, !handleDown_spec, Hd, Hn. done.
Qed.

End Lifecycle.

(** ** Exceptions *)

Section Exceptions.
Context {three : Three}.

Lemma exec_returns op s :
  (forall e, op <> pointer e) -> outcome (exec op) s = Returned tt.
Proof.
  intros Hop.
  destruct op as [o| |ev cb| | |e| | |].
  - by destruct (attach_result o s) as [H _].
  - reflexivity.
  - unfold outcome, exec, on. unfold_monad.
    by destruct (callbacks s !! callbackName ev).
  - unfold outcome, exec. by rewrite update_run.
  - reflexivity.
  - by destruct (Hop e).
  - reflexivity.
  - reflexivity.
  - reflexivity.
Qed.

Lemma handleDown_returns e s :
  hasCallbacks s -> outcome (_handleDown e) s = Returned tt.
Proof.
  intros Hs.
  destruct (handleDown_cases e s)
    as [H|[H|(o & hit & rest & a & Ho & Hv & Hi & Ha)]].
  - unfold outcome. by rewrite H.
  - unfold outcome. by rewrite H.
  - apply (press_run s e o hit rest a Hs Ho Hv Hi Ha).
Qed.

Lemma handleUp_returns s :
  hasCallbacks s -> outcome _handleUp s = Returned tt.
Proof.
  intros Hs. unfold outcome. destruct (isDragging s) eqn:Hd.
  - by rewrite (release_run s Hs Hd).
  - by rewrite handleUp_run, Hd.
Qed.

Lemma handleMove_outcome e s :
  hasCallbacks s ->
  outcome (_handleMove e) s
  = if isDragging s then
      match Ray.intersectPlane (pointerRay e s) (_dragPlane s),
            attachedObject s with
      | Some _, None => Thrown TypeError
      | _, _ => Returned tt
      end
    else Returned tt.
Proof.
  intros Hs. unfold outcome. destruct (isDragging s) eqn:Hd.
  - rewrite (handleMove_spec e s Hd). cbv zeta.
    assert ("onChange"%string ∈ callbackKeys) as Hin
      by (unfold callbackKeys; set_solver).
    destruct (Ray.intersectPlane (pointerRay e s) (_dragPlane s)) as [p|].
    + destruct (attachedObject s) as [o|]; [|done].
      rewrite trigger_reachable; [done|by case_bool_decide|done].
    + rewrite trigger_reachable; [|by case_bool_decide|done].
      by destruct (attachedObject s).
  - unfold _handleMove. unfold_monad. by rewrite Hd.
Qed.

(** X18: the widget's own code throws in one case only.  Callbacks are
    inert here, as everywhere in this model: a call of a registered
    callback returns and changes nothing the widget reads (a callback
    that throws, or that calls [detach], makes the method calling it
    throw, and is not covered).  Under that assumption, on a widget in a
    reachable state an operation throws exactly when it is a pointer
    move that reaches the listener during a drag, with nothing attached,
    whose ray hits the drag plane.  There it throws a TypeError; every
    other call and event returns. *)
Theorem X18_only_a_move_on_a_detached_drag_throws (s : State) (op : Op) :
  reachable s ->
  (moveOnDetachedDrag op s -> outcome (exec op) s = Thrown TypeError)
  /\ (~ moveOnDetachedDrag op s -> outcome (exec op) s = Returned tt).
Proof.
  intros Hs. apply reachable_hasCallbacks in Hs.
  assert ((exists e, op = pointer e) \/ forall e, op <> pointer e)
    as [[e ->]|Hno]
    by (destruct op; try (right; congruence); left; by eexists).
  - unfold exec at 1 2, outcome. rewrite dispatch_run.
    split.
    + intros (e' & [= <-] & Hty & Hl & Hd & Ho & Hi).
      rewrite Hl.
      pose proof (handleMove_outcome e s Hs) as Hm. unfold outcome in Hm.
      rewrite Hd, Ho in Hm.
      destruct (Ray.intersectPlane (pointerRay e s) (_dragPlane s));
        [|done].
      by destruct Hty as [->| ->].
    + intros Hnot. destruct (listening s) eqn:Hl; [|done].
      pose proof (handleDown_returns e s Hs) as Hdown.
      pose proof (handleUp_returns s Hs) as Hup.
      pose proof (handleMove_outcome e s Hs) as Hm.
      unfold outcome in Hdown, Hup, Hm.
      destruct (Event.type e) eqn:Hty; try done;
        (rewrite Hm;
         destruct (isDragging s) eqn:Hd; [|done];
         destruct (Ray.intersectPlane (pointerRay e s) (_dragPlane s))
           as [p|] eqn:Hi; [|done];
         destruct (attachedObject s) as [o|] eqn:Ho; [done|];
         exfalso; apply Hnot; exists e; rewrite Hi; by eauto 10).
  - split.
    + intros (e & -> & _). by destruct (Hno e).
    + intros _. by apply exec_returns.
Qed.

End Exceptions.

(** X18 at work: the move of [Scene.move] after a [detach] in the middle
    of a drag. *)
Lemma X18_witness :
  outcome (three := Scene.ortho) (exec (pointer Scene.move)) Scene.dropped
  = Thrown TypeError.
Proof.
  assert (reachable Scene.dropped) as Hr.
  { exists Scene.cam, 800, 800, Options.empty,
      [call_on "change" 7%nat; call_attach (Some Scene.turned);
       pointer Scene.press; call_detach].
    reflexivity. }
  apply (X18_only_a_move_on_a_detached_drag_throws (three := Scene.ortho)
           Scene.dropped (pointer Scene.move) Hr).
  exists Scene.move. split; [reflexivity|]. split; [by left|].
  repeat split; try (vm_compute; reflexivity).
  vm_compute. discriminate.
Defined.

(** ** What a press records, and [attach] during a drag *)

Section Retarget.
Context {three : Three}.

(** X19: a press that starts a drag records as drag plane the plane
    through the object's position whose normal is the camera's viewing
    direction, and as start intersection the point where the press ray
    meets that plane; when the ray misses the plane (it runs along it or
    away from it) the start intersection is the zero vector. *)
Theorem X19_press_records_the_drag_plane
    (s : State) (e : Event.t) (o : Object3D.t)
    (hit : Path) (rest : list Path) (a : Axis) :
  reachable s ->
  attachedObject s = Some o ->
  Group.visible (gizmoGroup s) = true ->
  intersectObjects (pointerRay e s) (gizmoGroup s) = hit :: rest ->
  ancestorAxis (Group.children (gizmoGroup s)) (rev hit) = Some a ->
  let plane :=
    Plane.setFromNormalAndCoplanarPoint (getWorldDirection (camera s))
      (Object3D.position o) in
  _dragPlane (after (_handleDown e) s) = plane
  /\ _startIntersection (after (_handleDown e) s)
     = match Ray.intersectPlane (pointerRay e s) plane with
       | Some p => p
       | None => Vector3.new
       end.
Proof.
  intros Hr Ho Hv Hi Ha plane.
  destruct (handleDown_starts_drag s e o hit rest a
              (reachable_hasCallbacks s Hr) Ho Hv Hi Ha) as (_ & Hd & _).
  unfold dragState in Hd. fold plane in Hd.
  injection Hd as _ _ Hp _ Hsi. split; [exact Hp|].
  rewrite Hsi. by destruct (Ray.intersectPlane _ _).
Qed.

(** X20: [attach] during a drag retargets the drag.  The next pointer
    move that hits the drag plane returns and moves the newly attached
    object: to the start position recorded for the old object (not its
    own position), plus the pointer offset projected on the new object's
    own axis. *)
Theorem X20_attach_during_a_drag_retargets_it
    (s : State) (e : Event.t) (o2 : Object3D.t) (a : Axis)
    (current : Vector3.t) :
  reachable s ->
  isDragging s = true ->
  activeAxis s = Some a ->
  Ray.intersectPlane (pointerRay e (after (attach (Some o2)) s))
    (_dragPlane s) = Some current ->
  let s2 := after (attach (Some o2)) s in
  let axisVec :=
    Vector3.normalize
      (Vector3.applyQuaternion (worldAxis a) (Object3D.quaternion o2)) in
  let amount :=
    Vector3.dot (Vector3.subVectors current (_startIntersection s)) axisVec in
  outcome (_handleMove e) s2 = Returned tt
  /\ attachedObject (after (_handleMove e) s2)
     = Some (Object3D.set_position
               (Vector3.add (_startPosition s)
                  (Vector3.multiplyScalar axisVec amount)) o2).
Proof.
  intros Hr Hd Hax Hi s2 axisVec amount.
  assert (hasCallbacks s2) as Hs2.
  { assert (preserves callbacks (attach (Some o2))) as Hcb by frame.
    unfold hasCallbacks, s2. rewrite Hcb. by apply reachable_hasCallbacks. }
  assert (preserves dragState (attach (Some o2))) as Hp
    by (unfold dragState; frame).
  pose proof (Hp s) as Hds. fold s2 in Hds. unfold dragState in Hds.
  injection Hds as Hd2 Hax2 Hpl2 Hsp2 Hsi2.
  assert (attachedObject s2 = Some o2) as Ho2
    by (by destruct (attach_result (Some o2) s) as (_ & H & _)).
  fold s2 in Hi. rewrite Hd in Hd2. rewrite Hax in Hax2.
  rewrite <- Hpl2 in Hi.
  subst axisVec amount. rewrite <- Hsp2, <- Hsi2. clearbody s2.
  unfold outcome, after.
  rewrite (handleMove_spec e s2 Hd2), Hi, Ho2, Hax2. cbv zeta.
  rewrite trigger_reachable;
    [ |by case_bool_decide|unfold callbackKeys; set_solver].
  rewrite aimed_spec. by case_bool_decide.
Qed.

End Retarget.

(** X19 at work: the press of [Scene.press] on the widget of
    [Scene.ready]. *)
Lemma X19_witness :
  _dragPlane (after (three := Scene.ortho) (_handleDown Scene.press)
                Scene.ready)
  = Plane.setFromNormalAndCoplanarPoint (Vector3.mk 0 0 (-1))
      (Object3D.position Scene.turned).
Proof.
  assert (reachable Scene.ready) as Hr.
  { exists Scene.cam, 800, 800, Options.empty,
      [call_on "change" 7%nat; call_attach (Some Scene.turned)].
    reflexivity. }
  destruct (X19_press_records_the_drag_plane (three := Scene.ortho)
              Scene.ready Scene.press Scene.turned [1%nat; 2%nat] []
              axis_x Hr)
    as (H & _).
  - vm_compute. reflexivity.
  - vm_compute. reflexivity.
  - vm_compute. reflexivity.
  - vm_compute. reflexivity.
  - exact H.
Defined.

(** X20 at work: the unrotated object attached in the middle of the drag
    of [Scene.dragging], then the move of [Scene.move]. *)
Lemma X20_witness :
  outcome (three := Scene.ortho) (_handleMove Scene.move)
    (after (three := Scene.ortho) (attach (Some Scene.upright))
       Scene.dragging)
  = Returned tt.
Proof.
  assert (reachable Scene.dragging) as Hr.
  { exists Scene.cam, 800, 800, Options.empty,
      [call_on "change" 7%nat; call_attach (Some Scene.turned);
       pointer Scene.press].
    reflexivity. }
  eapply (X20_attach_during_a_drag_retargets_it (three := Scene.ortho)
            Scene.dragging Scene.move Scene.upright axis_x _ Hr).
  - vm_compute. reflexivity.
  - vm_compute. reflexivity.
  - vm_compute. reflexivity.
Defined.
